(** * Olympic medal dashboard: derived data and selection state

    A shallow embedding of the dashboard's aggregation pipeline and of its
    selection state, taken from

    - [Homework3/ibhaumik/src/App.tsx] (the [Layout] component),
    - the Homework 3 [MedalTimeline] component (the zoomable timeline),
    - [Homework2/ibhaumik/src/components/MedalTimeline.tsx], which also holds
      the [DisciplineHeatmap] component,
    - [Homework2/ibhaumik/src/components/CountryTreemap.tsx].

    JavaScript strings are [string], array lengths and medal counts are
    [nat], [Date] values are their [getTime()] in milliseconds ([Z]), and the
    zoom transform carries binary64 floats. *)

From Stdlib Require Import List String Ascii ZArith Arith Bool Lia.
From Stdlib Require Import Sorted Permutation Floats.
Import ListNotations.

Local Open Scope list_scope.

(* ================================================================== *)
(** ** JavaScript values and array methods *)
(* ================================================================== *)

Module JS.

(** Truthiness of a string: every string but the empty one. *)
Definition truthy (s : string) : bool :=
  match s with
  | EmptyString => false
  | String _ _ => true
  end.

(** Truthiness of a [string | null] value. *)
Definition truthy_opt (o : option string) : bool :=
  match o with
  | None => false
  | Some s => truthy s
  end.

(** [v || ''] for a CSV field that may be absent. *)
Definition or_empty (o : option string) : string :=
  match o with
  | Some s => if truthy s then s else EmptyString
  | None => EmptyString
  end.

(** [Object.is] on [string | null] values, as React compares dependencies. *)
Definition same_opt (a b : option string) : bool :=
  match a, b with
  | None, None => true
  | Some x, Some y => String.eqb x y
  | _, _ => false
  end.

Section Sort.
Context {A : Type}.
(** The comparator of [Array.prototype.sort]: negative when the first
    argument sorts first. *)
Variable compare : A -> A -> Z.

(** [Array.prototype.sort] is a stable sort; it is modelled by stable
    insertion: an element is placed before the first element of the sorted
    rest that does not sort strictly before it. *)
Fixpoint insert (x : A) (l : list A) : list A :=
  match l with
  | [] => [x]
  | y :: l' =>
      if (compare x y <=? 0)%Z then x :: y :: l' else y :: insert x l'
  end.

Fixpoint sort (l : list A) : list A :=
  match l with
  | [] => []
  | x :: l' => insert x (sort l')
  end.
End Sort.

(** [array.slice(0, n)]. *)
Definition slice0 {A} (n : nat) (l : list A) : list A := firstn n l.

End JS.

(* ================================================================== *)
(** ** The d3 functions the components call *)
(* ================================================================== *)

Module D3.

Section Rollups.
Context {A R : Type}.
Variable reduce : list A -> R.
Variable key : A -> string.

(** One step of d3's grouping: the value joins the group of its key, or
    opens a new group after the existing ones (the underlying map keeps
    insertion order). *)
Fixpoint group_insert (k : string) (v : A) (groups : list (string * list A))
  : list (string * list A) :=
  match groups with
  | [] => [(k, [v])]
  | (k', vs) :: rest =>
      if String.eqb k' k then (k', vs ++ [v]) :: rest
      else (k', vs) :: group_insert k v rest
  end.

Definition groups (values : list A) : list (string * list A) :=
  fold_left (fun g v => group_insert (key v) v g) values [].

(** [d3.rollups(values, reduce, key)]. *)
Definition rollups (values : list A) : list (string * R) :=
  map (fun g => (fst g, reduce (snd g))) (groups values).
End Rollups.

(** The keys of a list in order of first occurrence. *)
Fixpoint distinct (l : list string) : list string :=
  match l with
  | [] => []
  | x :: r => x :: filter (fun y => negb (String.eqb y x)) (distinct r)
  end.

(** [d3.min(values)] on numbers: [undefined] for an empty array. *)
Definition min (l : list Z) : option Z :=
  match l with
  | [] => None
  | x :: r => Some (fold_left Z.min r x)
  end.

(** [d3.max(values)] on numbers: [undefined] for an empty array. *)
Definition max (l : list Z) : option Z :=
  match l with
  | [] => None
  | x :: r => Some (fold_left Z.max r x)
  end.

End D3.

(** [a ?? b]. *)
Definition nullish {A} (o : option A) (d : A) : A :=
  match o with
  | Some v => v
  | None => d
  end.

(* ================================================================== *)
(** ** JavaScript dates and [d3.timeParse('%Y-%m-%d')] *)
(* ================================================================== *)

(** The [Date] arithmetic of the language standard, on day numbers counted
    from 1970-01-01.  The host time zone is taken to be UTC, so local time
    and time value coincide. *)
Module JSDate.

Local Open Scope Z_scope.

Definition msPerDay : Z := 86400000.

Definition DayFromYear (y : Z) : Z :=
  365 * (y - 1970) + (y - 1969) / 4 - (y - 1901) / 100 + (y - 1601) / 400.

Definition InLeapYear (y : Z) : bool :=
  if negb (y mod 4 =? 0) then false
  else if negb (y mod 100 =? 0) then true
  else (y mod 400 =? 0).

(** Days of the year before month [mn] (0 is January). *)
Definition DaysBeforeMonth (leap : bool) (mn : Z) : Z :=
  let base := nth (Z.to_nat mn)
                  [0; 31; 59; 90; 120; 151; 181; 212; 243; 273; 304; 334] 0 in
  if leap && (2 <=? mn) then base + 1 else base.

(** [MakeDay(year, month, date)]: months and days out of range carry over. *)
Definition MakeDay (year month date : Z) : Z :=
  let ym := year + month / 12 in
  let mn := month mod 12 in
  DayFromYear ym + DaysBeforeMonth (InLeapYear ym) mn + date - 1.

(** [YearFromTime] on a day number: the last year that starts on or before
    the day. *)
Definition YearFromDay (day : Z) : Z :=
  let est := 1970 + (day * 400) / 146097 in
  if DayFromYear (est + 2) <=? day then est + 2
  else if DayFromYear (est + 1) <=? day then est + 1
  else if DayFromYear est <=? day then est
  else if DayFromYear (est - 1) <=? day then est - 1
  else est - 2.

Definition MonthFromDay (day : Z) : Z :=
  let y := YearFromDay day in
  let diy := day - DayFromYear y in
  let leap := InLeapYear y in
  Z.of_nat
    (List.length
       (filter (fun mn => DaysBeforeMonth leap mn <=? diy)
               [1; 2; 3; 4; 5; 6; 7; 8; 9; 10; 11])).

Definition DateFromDay (day : Z) : Z :=
  let y := YearFromDay day in
  day - DayFromYear y - DaysBeforeMonth (InLeapYear y) (MonthFromDay day) + 1.

(** [new Date(y, m, d).getTime()]; a year from 0 to 99 means 1900 + year. *)
Definition newDate (y m d : Z) : Z :=
  let yr := if (0 <=? y) && (y <=? 99) then 1900 + y else y in
  MakeDay yr m d * msPerDay.

(** [date.setFullYear(y)] on a midnight time value [t]. *)
Definition setFullYear (t y : Z) : Z :=
  let day := t / msPerDay in
  MakeDay y (MonthFromDay day) (DateFromDay day) * msPerDay.

End JSDate.

Module TimeParse.

Definition code (c : ascii) : nat := nat_of_ascii c.

(** The characters [\s] matches, among code units below 256. *)
Definition is_space (c : ascii) : bool :=
  let n := code c in
  ((9 <=? n) && (n <=? 13)) || (n =? 32) || (n =? 160).

Definition is_digit (c : ascii) : bool :=
  let n := code c in (48 <=? n) && (n <=? 57).

Fixpoint take_while (p : ascii -> bool) (l : list ascii) : list ascii :=
  match l with
  | c :: r => if p c then c :: take_while p r else []
  | [] => []
  end.

Definition digits_value (ds : list ascii) : Z :=
  fold_left (fun acc c => (10 * acc + Z.of_nat (code c - 48))%Z) ds 0%Z.

(** [numberRe = /^\s*\d+/] on [string.slice(i, i + width)]: the number read
    and the length of the match.  The width is an upper bound only: one
    digit is enough for a match. *)
Definition numberRe (width : nat) (rest : list ascii) : option (Z * nat) :=
  let window := firstn width rest in
  let ws := take_while is_space window in
  let ds := take_while is_digit (skipn (List.length ws) window) in
  match ds with
  | [] => None
  | _ => Some (digits_value ds, (List.length ws + List.length ds)%nat)
  end.

(** A directive that reads a number of at most [width] characters; the
    specifier loop gives up when the input is exhausted. *)
Definition directive (width : nat) (rest : list ascii)
  : option (Z * list ascii) :=
  match rest with
  | [] => None
  | _ => match numberRe width rest with
         | Some (v, len) => Some (v, skipn len rest)
         | None => None
         end
  end.

(** A literal character of the specifier. *)
Definition literal (c : ascii) (rest : list ascii) : option (list ascii) :=
  match rest with
  | c' :: r => if Ascii.eqb c c' then Some r else None
  | [] => None
  end.

(** The fields [y], [m] (from 0) and [d] read by the specifier
    ['%Y-%m-%d']; the whole string must be consumed. *)
Definition fields (s : string) : option (Z * Z * Z) :=
  match directive 4 (list_ascii_of_string s) with
  | None => None
  | Some (y, r1) =>
  match literal "-"%char r1 with
  | None => None
  | Some r2 =>
  match directive 2 r2 with
  | None => None
  | Some (m, r3) =>
  match literal "-"%char r3 with
  | None => None
  | Some r4 =>
  match directive 2 r4 with
  | None => None
  | Some (d, r5) =>
  match r5 with
  | [] => Some (y, (m - 1)%Z, d)
  | _ => None
  end end end end end end.

(** d3's [localDate]: years 0 to 99 go through [setFullYear]. *)
Definition localDate (f : Z * Z * Z) : Z :=
  let '(y, m, d) := f in
  if ((0 <=? y) && (y <? 100))%Z
  then JSDate.setFullYear (JSDate.newDate (-1) m d) y
  else JSDate.newDate y m d.

(** [d3.timeParse('%Y-%m-%d')], returning the parsed date's [getTime()],
    or [None] for [null]. *)
Definition timeParse_Ymd (s : string) : option Z :=
  option_map localDate (fields s).

End TimeParse.

(* ================================================================== *)
(** ** Shared view state *)
(* ================================================================== *)

(** [ComponentSize]: the measured size of a chart container. *)
Record ComponentSize := { width : float; height : float }.

(** [size.width === 0 || size.height === 0]. *)
Definition size_is_zero (size : ComponentSize) : bool :=
  PrimFloat.eqb (width size) 0%float || PrimFloat.eqb (height size) 0%float.

(** [d3.ZoomTransform]: scale [k] and translation [(x, y)]. *)
Record ZoomTransform := { k : float; x : float; y : float }.

Definition zoomIdentity : ZoomTransform :=
  {| k := 1%float; x := 0%float; y := 0%float |}.

(** The outcome of a computation that loops and indexes an array. *)
Inductive result (A : Type) : Type :=
| Ok (a : A)
| TypeError
| OutOfFuel.
Arguments Ok {A} a.
Arguments TypeError {A}.
Arguments OutOfFuel {A}.

(* ================================================================== *)
(** ** The Homework 3 timeline ([MedalTimeline] with zoom and discipline) *)
(* ================================================================== *)

Module Timeline.

Local Open Scope string_scope.

(** A row object as [d3.csv] hands it to the row converter: a column that
    is absent from the file reads as [undefined]. *)
Record CsvRow := {
  csv_medal_type : option string;
  csv_medal_date : option string;
  csv_country_code : option string;
  csv_discipline : option string
}.

Record MedalRow := {
  medal_type : string;
  medal_date : string;
  country_code : string;
  discipline : string
}.

Record MedalByDate := {
  date : Z;
  gold : nat;
  silver : nat;
  bronze : nat;
  total : nat
}.

Record Counts := { c_gold : nat; c_silver : nat; c_bronze : nat }.

Definition convert (d : CsvRow) : MedalRow :=
  {| medal_type := JS.or_empty (csv_medal_type d);
     medal_date := JS.or_empty (csv_medal_date d);
     country_code := JS.or_empty (csv_country_code d);
     discipline := JS.or_empty (csv_discipline d) |}.

(** The rows kept by [loadData]. *)
Definition loadData (rows : list CsvRow) : list MedalRow :=
  filter (fun d => JS.truthy (medal_date d) && JS.truthy (country_code d))
         (map convert rows).

Definition count_type (t : string) (v : list MedalRow) : nat :=
  List.length (filter (fun d => String.eqb (medal_type d) t) v).

Definition reduce (v : list MedalRow) : Counts :=
  {| c_gold := count_type "Gold Medal" v;
     c_silver := count_type "Silver Medal" v;
     c_bronze := count_type "Bronze Medal" v |}.

Definition filtered (data : list MedalRow) (selectedCountryCode : string)
    (selectedDiscipline : option string) : list MedalRow :=
  let filtered :=
    filter (fun d => String.eqb (country_code d) selectedCountryCode) data in
  match selectedDiscipline with
  | Some s =>
      if JS.truthy s
      then filter (fun d => String.eqb (discipline d) s) filtered
      else filtered
  | None => filtered
  end.

Definition grouped (data : list MedalRow) (selectedCountryCode : string)
    (selectedDiscipline : option string) : list (string * Counts) :=
  D3.rollups reduce medal_date
             (filtered data selectedCountryCode selectedDiscipline).

Section Series.
(** [parseDate = d3.timeParse('%Y-%m-%d')], as the parsed date's
    [getTime()]. *)
Variable parseDate : string -> option Z.

Definition entry (g : string * Counts) : option MedalByDate :=
  let counts := snd g in
  match parseDate (fst g) with
  | None => None
  | Some parsed =>
      let total := (c_gold counts + c_silver counts + c_bronze counts)%nat in
      Some {| date := parsed;
              gold := c_gold counts;
              silver := c_silver counts;
              bronze := c_bronze counts;
              total := total |}
  end.

(** [.filter((d) => d !== null)]. *)
Fixpoint non_null {A} (l : list (option A)) : list A :=
  match l with
  | [] => []
  | Some a :: r => a :: non_null r
  | None :: r => non_null r
  end.

Definition by_date (a b : MedalByDate) : Z := (date a - date b)%Z.

Definition seriesData (data : list MedalRow) (selectedCountryCode : string)
    (selectedDiscipline : option string) : list MedalByDate :=
  JS.sort by_date
    (non_null
       (map entry (grouped data selectedCountryCode selectedDiscipline))).
End Series.

(** [d3.bisector((d) => d.date.getTime()).left(a, x)]: the midpoint is
    [(lo + hi) >>> 1], an unsigned 32-bit shift. *)
Fixpoint bisect_loop (fuel : nat) (a : list MedalByDate) (x lo hi : Z)
  : result Z :=
  if (lo <? hi)%Z then
    match fuel with
    | O => OutOfFuel
    | S fuel' =>
        let mid := Z.shiftr ((lo + hi) mod 2 ^ 32) 1 in
        match nth_error a (Z.to_nat mid) with
        | None => TypeError
        | Some d =>
            if (date d - x <? 0)%Z
            then bisect_loop fuel' a x (mid + 1) hi
            else bisect_loop fuel' a x lo mid
        end
    end
  else Ok lo.

Definition bisect_left (a : list MedalByDate) (x : Z) : result Z :=
  bisect_loop (List.length a) a x 0 (Z.of_nat (List.length a)).

(** The [mousemove] handler: the entry shown in the tooltip for the date
    [x] under the pointer, or [None] when the handler returns early. *)
Definition hover (seriesData : list MedalByDate) (x : Z)
  : result (option MedalByDate) :=
  match bisect_left seriesData x with
  | Ok b =>
      let i := Z.min b (Z.of_nat (List.length seriesData) - 1) in
      Ok (if (i <? 0)%Z then None else nth_error seriesData (Z.to_nat i))
  | TypeError => TypeError
  | OutOfFuel => OutOfFuel
  end.

Record Props := {
  selectedCountryCode : string;
  selectedCountryName : string;
  selectedDiscipline : option string
}.

(** What the drawing effect leaves in the svg. *)
Inductive View :=
| NotDrawn
| EmptyState (title message : string)
| Chart (title : string) (series : list MedalByDate) (zoom : ZoomTransform).

Definition titleText (p : Props) : string :=
  match selectedDiscipline p with
  | Some s =>
      if JS.truthy s
      then "Focus: " ++ selectedCountryName p ++ " — " ++ s
      else "Focus: Medal Timeline for " ++ selectedCountryName p
  | None => "Focus: Medal Timeline for " ++ selectedCountryName p
  end.

Definition emptyMessage (p : Props) : string :=
  if JS.truthy_opt (selectedDiscipline p)
  then "No medals in this discipline."
  else "No medals recorded for this country.".

Section Effects.
Variable parseDate : string -> option Z.

(** The drawing effect. *)
Definition draw (data : list MedalRow) (size : ComponentSize) (p : Props)
    (zoomTransform : ZoomTransform) : View :=
  match data with
  | [] => NotDrawn
  | _ =>
      if size_is_zero size then NotDrawn
      else
        let series := seriesData parseDate data (selectedCountryCode p)
                                 (selectedDiscipline p) in
        match series with
        | [] => EmptyState (titleText p) (emptyMessage p)
        | _ => Chart (titleText p) series zoomTransform
        end
  end.

(** The calls of [setZoomTransform] made while the drawing effect runs:
    [zoomBehavior.transform(svg, zoomTransform)] fires the zoom listener
    with the transform it was given. *)
Definition draw_zoom_updates (v : View) : list ZoomTransform :=
  match v with
  | Chart _ _ z => [z]
  | _ => []
  end.

(** The dependency test of the zoom-reset effect,
    [[selectedCountryCode, selectedDiscipline]]. *)
Definition reset_deps_changed (prev next : Props) : bool :=
  negb (String.eqb (selectedCountryCode prev) (selectedCountryCode next))
  || negb (JS.same_opt (selectedDiscipline prev) (selectedDiscipline next)).

Definition reset_zoom_updates (prev next : Props) : list ZoomTransform :=
  if reset_deps_changed prev next then [zoomIdentity] else [].

(** The effects of one commit after the props went from [prev] to
    [next]: the drawing effect first, the reset effect second; the last
    state update wins.  The drawing effect only hands the current transform
    back, so running it when none of its dependencies changed makes no
    difference. *)
Definition commit (data : list MedalRow) (size : ComponentSize)
    (prev next : Props) (zoomTransform : ZoomTransform) : ZoomTransform :=
  last (draw_zoom_updates (draw data size next zoomTransform)
        ++ reset_zoom_updates prev next)%list
       zoomTransform.
End Effects.

End Timeline.

(* ================================================================== *)
(** ** The Homework 2 detail view ([DisciplineHeatmap]) *)
(* ================================================================== *)

Module Heatmap.

Local Open Scope string_scope.

Record CsvRow := {
  csv_medal_type : option string;
  csv_medal_date : option string;
  csv_country_code : option string;
  csv_discipline : option string
}.

Record MedalRow := {
  medal_type : string;
  discipline : string;
  country_code : string
}.

Record HeatmapCell := {
  cell_discipline : string;
  medalType : string;
  count : nat
}.

Definition medalTypes : list string :=
  ["Gold Medal"; "Silver Medal"; "Bronze Medal"].

(** The row converter reads three columns; [medal_date] is not among
    them. *)
Definition convert (d : CsvRow) : MedalRow :=
  {| medal_type := JS.or_empty (csv_medal_type d);
     discipline := JS.or_empty (csv_discipline d);
     country_code := JS.or_empty (csv_country_code d) |}.

Definition keep (d : MedalRow) : bool :=
  JS.truthy (discipline d) && JS.truthy (country_code d).

(** The rows kept by [loadData]. *)
Definition loadData (rows : list CsvRow) : list MedalRow :=
  filter keep (map convert rows).

Definition filtered (data : list MedalRow) (selectedCountryCode : string)
  : list MedalRow :=
  filter (fun d => String.eqb (country_code d) selectedCountryCode) data.

Definition byDiscipline (data : list MedalRow) (selectedCountryCode : string)
  : list (string * nat) :=
  D3.rollups (@List.length MedalRow) discipline
             (filtered data selectedCountryCode).

(** The comparator [(a, b) => b[1] - a[1]]. *)
Definition by_count_desc (a b : string * nat) : Z :=
  (Z.of_nat (snd b) - Z.of_nat (snd a))%Z.

Definition topDisciplines (data : list MedalRow) (selectedCountryCode : string)
  : list string :=
  map fst
      (JS.slice0 12 (JS.sort by_count_desc
                             (byDiscipline data selectedCountryCode))).

(** [filtered.filter(...).length || 0]. *)
Definition cellCount (rows : list MedalRow) (d m : string) : nat :=
  let n :=
    List.length
      (filter (fun r => String.eqb (discipline r) d
                        && String.eqb (medal_type r) m) rows) in
  match n with
  | O => O
  | _ => n
  end.

(** The two nested [forEach] loops that push the cells. *)
Definition cellsFor (rows : list MedalRow) (disciplines : list string)
  : list HeatmapCell :=
  flat_map
    (fun d =>
       map (fun m => {| cell_discipline := d;
                        medalType := m;
                        count := cellCount rows d m |})
           medalTypes)
    disciplines.

Definition cells (data : list MedalRow) (selectedCountryCode : string)
  : list HeatmapCell :=
  cellsFor (filtered data selectedCountryCode)
           (topDisciplines data selectedCountryCode).

Inductive View :=
| NotDrawn
| EmptyState (title message : string)
| Grid (title : string) (rows : list string) (cells : list HeatmapCell).

Definition titleText (selectedCountryName : string) : string :=
  "Detail: Discipline Mix for " ++ selectedCountryName ++ " (Top 12)".

(** The drawing effect. *)
Definition draw (data : list MedalRow) (size : ComponentSize)
    (selectedCountryCode selectedCountryName : string) : View :=
  match data with
  | [] => NotDrawn
  | _ =>
      if size_is_zero size then NotDrawn
      else
        match cells data selectedCountryCode with
        | [] => EmptyState
                  (titleText selectedCountryName)
                  "No discipline-level medals recorded for this country."
        | cs => Grid (titleText selectedCountryName)
                     (topDisciplines data selectedCountryCode) cs
        end
  end.

End Heatmap.

(* ================================================================== *)
(** ** The Homework 2 overview ([CountryTreemap]) *)
(* ================================================================== *)

Module Treemap.

(** A row of the totals table; the medal counts are integers. *)
Record MedalTotalRow := {
  country_code : string;
  country : string;
  gold : Z;
  silver : Z;
  bronze : Z;
  total : Z
}.

Definition minTotal (data : list MedalTotalRow) : Z :=
  nullish (D3.min (map total data)) 0%Z.

Definition maxTotal (data : list MedalTotalRow) : Z :=
  nullish (D3.max (map total data)) 1%Z.

(** The domain of the sequential colour scale. *)
Definition colorDomain (data : list MedalTotalRow) : Z * Z :=
  (minTotal data, maxTotal data).

(** The comparator of the hierarchy sort, on leaf values. *)
Definition by_value_desc (a b : MedalTotalRow) : Z := (total b - total a)%Z.

Record Leaf := {
  leaf_row : MedalTotalRow;
  leaf_selected : bool
}.

Inductive View :=
| NotDrawn
| Drawn (domain : Z * Z) (leaves : list Leaf).

(** The drawing effect: the colour domain comes from the table, the
    stroke of a leaf from the selected country. *)
Definition draw (data : list MedalTotalRow) (size : ComponentSize)
    (selectedCountryCode : string) : View :=
  match data with
  | [] => NotDrawn
  | _ =>
      if size_is_zero size then NotDrawn
      else
        Drawn (colorDomain data)
              (map (fun d =>
                      {| leaf_row := d;
                         leaf_selected :=
                           String.eqb (country_code d) selectedCountryCode |})
                   (JS.sort by_value_desc data))
  end.

Definition view_domain (v : View) : option (Z * Z) :=
  match v with
  | NotDrawn => None
  | Drawn dom _ => Some dom
  end.

End Treemap.

(* ================================================================== *)
(** ** The Homework 3 [Layout] component and the dashboard it drives *)
(* ================================================================== *)

Module App.

Local Open Scope string_scope.

(** The three state cells of [Layout]. *)
Record Selection := {
  selectedCountryCode : string;
  selectedCountryName : string;
  selectedDiscipline : option string
}.

Definition initial : Selection :=
  {| selectedCountryCode := "USA";
     selectedCountryName := "United States";
     selectedDiscipline := None |}.

Definition handleSelectCountry (code name : string) (s : Selection)
  : Selection :=
  {| selectedCountryCode := code;
     selectedCountryName := name;
     selectedDiscipline := None |}.

Definition setSelectedDiscipline (d : option string) (s : Selection)
  : Selection :=
  {| selectedCountryCode := selectedCountryCode s;
     selectedCountryName := selectedCountryName s;
     selectedDiscipline := d |}.

(** The props [Layout] passes to the timeline. *)
Definition timelineProps (s : Selection) : Timeline.Props :=
  {| Timeline.selectedCountryCode := selectedCountryCode s;
     Timeline.selectedCountryName := selectedCountryName s;
     Timeline.selectedDiscipline := selectedDiscipline s |}.

(** The dashboard: the selection of [Layout] and the state of the timeline
    component (loaded rows, measured size, zoom transform). *)
Record Dashboard := {
  selection : Selection;
  data : list Timeline.MedalRow;
  size : ComponentSize;
  zoomTransform : ZoomTransform
}.

Section Transitions.
Variable parseDate : string -> option Z.

(** A change of selection is followed by one commit of the timeline. *)
Definition reselect (next : Selection) (s : Dashboard) : Dashboard :=
  {| selection := next;
     data := data s;
     size := size s;
     zoomTransform :=
       Timeline.commit parseDate (data s) (size s)
                       (timelineProps (selection s)) (timelineProps next)
                       (zoomTransform s) |}.

Definition selectCountry (code name : string) (s : Dashboard) : Dashboard :=
  reselect (handleSelectCountry code name (selection s)) s.

Definition selectDiscipline (d : option string) (s : Dashboard)
  : Dashboard :=
  reselect (setSelectedDiscipline d (selection s)) s.

(** The zoom listener: [setZoomTransform(event.transform)]. *)
Definition zoomed (t : ZoomTransform) (s : Dashboard) : Dashboard :=
  {| selection := selection s;
     data := data s;
     size := size s;
     zoomTransform := t |}.

Definition loaded (rows : list Timeline.CsvRow) (s : Dashboard)
  : Dashboard :=
  {| selection := selection s;
     data := Timeline.loadData rows;
     size := size s;
     zoomTransform := zoomTransform s |}.

Definition resized (sz : ComponentSize) (s : Dashboard) : Dashboard :=
  {| selection := selection s;
     data := data s;
     size := sz;
     zoomTransform := zoomTransform s |}.

Definition mounted : Dashboard :=
  {| selection := initial;
     data := [];
     size := {| width := 0%float; height := 0%float |};
     zoomTransform := zoomIdentity |}.

(** The zoom behaviour is attached when the chart is drawn. *)
Definition chart_drawn (s : Dashboard) : bool :=
  match Timeline.draw parseDate (data s) (size s)
                      (timelineProps (selection s)) (zoomTransform s) with
  | Timeline.Chart _ _ _ => true
  | _ => false
  end.

(** [scaleExtent([1, 32])]. *)
Definition in_scale_extent (t : ZoomTransform) : bool :=
  PrimFloat.leb 1%float (k t) && PrimFloat.leb (k t) 32%float.

(** The states the dashboard can be in. *)
Inductive reachable : Dashboard -> Prop :=
| reach_mounted : reachable mounted
| reach_loaded rows s : reachable s -> reachable (loaded rows s)
| reach_resized sz s : reachable s -> reachable (resized sz s)
| reach_country code name s :
    reachable s -> reachable (selectCountry code name s)
| reach_discipline d s :
    reachable s -> reachable (selectDiscipline d s)
| reach_zoomed t s :
    reachable s -> chart_drawn s = true -> in_scale_extent t = true ->
    reachable (zoomed t s).
End Transitions.

End App.

(* ================================================================== *)
(** ** Scales of the Homework 3 timeline and of the detail view *)
(* ================================================================== *)

Module Scales.

(** [value || 1] on the result of [d3.max]: [undefined] and 0 give 1. *)
Definition or_one (o : option Z) : Z :=
  match o with
  | None => 1%Z
  | Some v => if (v =? 0)%Z then 1%Z else v
  end.

(** [d3.extent(seriesData, (d) => d.date)], on the time values. *)
Definition xDomain (seriesData : list Timeline.MedalByDate)
  : option (Z * Z) :=
  let dates := map Timeline.date seriesData in
  match D3.min dates, D3.max dates with
  | Some lo, Some hi => Some (lo, hi)
  | _, _ => None
  end.

(** The upper end of the y domain before [.nice()]:
    [d3.max(seriesData, (d) => d.total) || 1]. *)
Definition yMax (seriesData : list Timeline.MedalByDate) : Z :=
  or_one (D3.max (map (fun d => Z.of_nat (Timeline.total d)) seriesData)).

(** [maxCount = d3.max(cells, (d) => d.count) || 1], the upper end of the
    colour domain of the detail view. *)
Definition maxCount (cells : list Heatmap.HeatmapCell) : Z :=
  or_one (D3.max (map (fun d => Z.of_nat (Heatmap.count d)) cells)).

End Scales.

(* ================================================================== *)
(** ** The Homework 2 timeline ([MedalTimeline] without zoom) *)
(* ================================================================== *)

Module Timeline2.

Local Open Scope string_scope.

Record MedalRow := {
  medal_type : string;
  medal_date : string;
  country_code : string
}.

(** The row converter reads three columns of the medals file. *)
Definition convert (d : Timeline.CsvRow) : MedalRow :=
  {| medal_type := JS.or_empty (Timeline.csv_medal_type d);
     medal_date := JS.or_empty (Timeline.csv_medal_date d);
     country_code := JS.or_empty (Timeline.csv_country_code d) |}.

Definition loadData (rows : list Timeline.CsvRow) : list MedalRow :=
  filter (fun d => JS.truthy (medal_date d) && JS.truthy (country_code d))
         (map convert rows).

Definition count_type (t : string) (v : list MedalRow) : nat :=
  List.length (filter (fun d => String.eqb (medal_type d) t) v).

Definition reduce (v : list MedalRow) : Timeline.Counts :=
  {| Timeline.c_gold := count_type "Gold Medal" v;
     Timeline.c_silver := count_type "Silver Medal" v;
     Timeline.c_bronze := count_type "Bronze Medal" v |}.

Definition filtered (data : list MedalRow) (selectedCountryCode : string)
  : list MedalRow :=
  filter (fun d => String.eqb (country_code d) selectedCountryCode) data.

Definition grouped (data : list MedalRow) (selectedCountryCode : string)
  : list (string * Timeline.Counts) :=
  D3.rollups reduce medal_date (filtered data selectedCountryCode).

(** The series has the shape of the Homework 3 series: the [MedalByDate]
    interface and the mapping of a group to an entry are the same text. *)
Definition seriesData (parseDate : string -> option Z)
    (data : list MedalRow) (selectedCountryCode : string)
  : list Timeline.MedalByDate :=
  JS.sort Timeline.by_date
    (Timeline.non_null
       (map (Timeline.entry parseDate) (grouped data selectedCountryCode))).

Inductive View :=
| NotDrawn
| EmptyState (title message : string)
| Chart (title : string) (series : list Timeline.MedalByDate).

(** The drawing effect. *)
Definition draw (parseDate : string -> option Z) (data : list MedalRow)
    (size : ComponentSize) (selectedCountryCode selectedCountryName : string)
  : View :=
  match data with
  | [] => NotDrawn
  | _ =>
      if size_is_zero size then NotDrawn
      else
        let title := "Focus: Medal Timeline for " ++ selectedCountryName in
        match seriesData parseDate data selectedCountryCode with
        | [] => EmptyState title "No medals recorded for this country."
        | series => Chart title series
        end
  end.

End Timeline2.

(* ================================================================== *)
(** ** Leaves, labels and clicks of the overview *)
(* ================================================================== *)

Module Overview.

(** [rows.filter((d) => d.country_code)], on the converted rows. *)
Definition loadData (rows : list Treemap.MedalTotalRow)
  : list Treemap.MedalTotalRow :=
  filter (fun d => JS.truthy (Treemap.country_code d)) rows.

(** [root.leaves()] after the hierarchy sort: the rows by descending
    total. *)
Definition leaves (data : list Treemap.MedalTotalRow)
  : list Treemap.MedalTotalRow :=
  JS.sort Treemap.by_value_desc data.

(** [topLabels]: the country codes of the twelve largest totals; a [Set],
    used for membership only. *)
Definition topLabels (data : list Treemap.MedalTotalRow) : list string :=
  map Treemap.country_code
      (JS.slice0 12
         (JS.sort (fun a b => (Treemap.total b - Treemap.total a)%Z) data)).

(** [set.has(code)]. *)
Definition has (set : list string) (code : string) : bool :=
  existsb (String.eqb code) set.

(** The leaves that get a text label. *)
Definition labelled (data : list Treemap.MedalTotalRow)
  : list Treemap.MedalTotalRow :=
  filter (fun d => has (topLabels data) (Treemap.country_code d))
         (leaves data).

(** The click handler of a leaf, wired to [handleSelectCountry] of
    [Layout]. *)
Definition click (d : Treemap.MedalTotalRow) (s : App.Selection)
  : App.Selection :=
  App.handleSelectCountry (Treemap.country_code d) (Treemap.country d) s.

(** The selections a session can reach: leaves of the loaded table are
    clicked and disciplines are selected or cleared. *)
Inductive session (rows : list Treemap.MedalTotalRow)
  : App.Selection -> Prop :=
| session_initial : session rows App.initial
| session_click d s :
    session rows s -> In d (leaves (loadData rows)) ->
    session rows (click d s)
| session_discipline o s :
    session rows s -> session rows (App.setSelectedDiscipline o s).

End Overview.

(* ================================================================== *)
(** ** Tallies *)
(* ================================================================== *)

Module Tally.

Local Open Scope string_scope.

(** The medal type is one of the three the views count. *)
Definition known_type (t : string) : bool :=
  String.eqb t "Gold Medal" || String.eqb t "Silver Medal"
  || String.eqb t "Bronze Medal".

Definition parses (parseDate : string -> option Z) (s : string) : bool :=
  match parseDate s with
  | Some _ => true
  | None => false
  end.

(** The sum of the [total] fields of a series. *)
Definition series_total (series : list Timeline.MedalByDate) : nat :=
  list_sum (map Timeline.total series).

(** The sum of the counts of a matrix. *)
Definition cells_total (cells : list Heatmap.HeatmapCell) : nat :=
  list_sum (map Heatmap.count cells).

(** Forgetting the discipline of a Homework 3 row. *)
Definition forget (r : Timeline.MedalRow) : Timeline2.MedalRow :=
  {| Timeline2.medal_type := Timeline.medal_type r;
     Timeline2.medal_date := Timeline.medal_date r;
     Timeline2.country_code := Timeline.country_code r |}.

End Tally.

(* ================================================================== *)
(** ** Larger sample inputs *)
(* ================================================================== *)

Module Samples.

Local Open Scope string_scope.

Definition medal (t d : string) : Heatmap.MedalRow :=
  {| Heatmap.medal_type := t;
     Heatmap.discipline := d;
     Heatmap.country_code := "USA" |}.

(** Thirteen disciplines: two medals in the last one, one in each of the
    others. *)
Definition thirteen : list Heatmap.MedalRow :=
  map (medal "Gold Medal")
      ["Archery"; "Athletics"; "Boxing"; "Cycling"; "Diving"; "Fencing";
       "Golf"; "Judo"; "Rowing"; "Sailing"; "Shooting"; "Swimming";
       "Tennis"]
  ++ [medal "Silver Medal" "Tennis"].

Definition total_row (c n : string) (t : Z) : Treemap.MedalTotalRow :=
  {| Treemap.country_code := c; Treemap.country := n;
     Treemap.gold := t; Treemap.silver := 0; Treemap.bronze := 0;
     Treemap.total := t |}.

Definition usa_row : Treemap.MedalTotalRow :=
  total_row "USA" "United States" 126.

Definition fra_row : Treemap.MedalTotalRow := total_row "FRA" "France" 64.

Definition table : list Treemap.MedalTotalRow := [fra_row; usa_row].

End Samples.

(* ================================================================== *)
(** ** Vocabulary of the specification *)
(* ================================================================== *)

Module Spec.

(** Ascending order of an integer key. *)
Definition key_le {A} (key : A -> Z) (a b : A) : Prop := (key a <= key b)%Z.

(** The values of one key, in input order. *)
Definition members {A} (key : A -> string) (l : list A) (s : string)
  : list A :=
  filter (fun v => String.eqb (key v) s) l.

(** How many of the rows belong to a discipline. *)
Definition occurrences (rows : list Heatmap.MedalRow) (d : string) : nat :=
  List.length (members Heatmap.discipline rows d).

(** How many of the rows are medals of type [m] in discipline [d]. *)
Definition matching (rows : list Heatmap.MedalRow) (d m : string) : nat :=
  List.length
    (filter (fun r => String.eqb (Heatmap.discipline r) d
                      && String.eqb (Heatmap.medal_type r) m) rows).

(** Descending order of the counts. *)
Definition count_ge (a b : string * nat) : Prop := snd b <= snd a.

(** The key under which [by_count_desc] sorts ascending. *)
Definition neg_count (a : string * nat) : Z := (- Z.of_nat (snd a))%Z.

(** A timeline row passes the filter: it is of the selected country and,
    when a non-empty discipline is selected, of that discipline. *)
Definition selected (code : string) (disc : option string)
    (r : Timeline.MedalRow) : bool :=
  String.eqb (Timeline.country_code r) code
  && match disc with
     | Some s => if JS.truthy s then String.eqb (Timeline.discipline r) s
                 else true
     | None => true
     end.

(** The entry of the date string [s] parsed as [t]: the medals of each
    type among the rows dated [s], and their sum. *)
Definition dated_counts (rows : list Timeline.MedalRow) (s : string) (t : Z)
  : Timeline.MedalByDate :=
  let day := members Timeline.medal_date rows s in
  let g := Timeline.count_type "Gold Medal" day in
  let sv := Timeline.count_type "Silver Medal" day in
  let b := Timeline.count_type "Bronze Medal" day in
  {| Timeline.date := t;
     Timeline.gold := g;
     Timeline.silver := sv;
     Timeline.bronze := b;
     Timeline.total := g + sv + b |}.

(** Ascending order of the dates. *)
Definition date_le (a b : Timeline.MedalByDate) : Prop :=
  (Timeline.date a <= Timeline.date b)%Z.

End Spec.

(* ================================================================== *)
(** ** Sample inputs *)
(* ================================================================== *)

Module Examples.

Local Open Scope string_scope.

Definition csv (t d c s : string) : Timeline.CsvRow :=
  {| Timeline.csv_medal_type := Some t;
     Timeline.csv_medal_date := Some d;
     Timeline.csv_country_code := Some c;
     Timeline.csv_discipline := Some s |}.

(** Two swimming medals on one day and an athletics medal on the next. *)
Definition rows : list Timeline.CsvRow :=
  [ csv "Gold Medal" "2024-07-28" "USA" "Swimming";
    csv "Silver Medal" "2024-07-28" "USA" "Swimming";
    csv "Gold Medal" "2024-07-29" "USA" "Athletics" ].

Definition records : list Timeline.MedalRow := Timeline.loadData rows.


Definition hcsv (t d c s : option string) : Heatmap.CsvRow :=
  {| Heatmap.csv_medal_type := t;
     Heatmap.csv_medal_date := d;
     Heatmap.csv_country_code := c;
     Heatmap.csv_discipline := s |}.

Definition heatmap_rows : list Heatmap.CsvRow :=
  [ hcsv (Some "Gold Medal") (Some "2024-07-28") (Some "USA") (Some "Swimming");
    hcsv (Some "Silver Medal") (Some "2024-07-28") (Some "USA")
         (Some "Swimming");
    hcsv (Some "Gold Medal") (Some "2024-07-29") (Some "USA")
         (Some "Athletics") ].

Definition heatmap_records : list Heatmap.MedalRow :=
  Heatmap.loadData heatmap_rows.



Definition totals : list Treemap.MedalTotalRow :=
  [ {| Treemap.country_code := "USA"; Treemap.country := "United States";
       Treemap.gold := 40; Treemap.silver := 44; Treemap.bronze := 42;
       Treemap.total := 126 |};
    {| Treemap.country_code := "FRA"; Treemap.country := "France";
       Treemap.gold := 16; Treemap.silver := 26; Treemap.bronze := 22;
       Treemap.total := 64 |} ].

Definition size600 : ComponentSize :=
  {| width := 600%float; height := 400%float |}.

Definition zoom2 : ZoomTransform :=
  {| k := 2%float; x := 0%float; y := 0%float |}.

(** The dashboard after the rows have loaded, the container has been
    measured and the user has zoomed in on the chart of the default
    country. *)
Definition zoomed_in : App.Dashboard :=
  App.zoomed zoom2 (App.resized size600 (App.loaded rows App.mounted)).

End Examples.

(* ================================================================== *)
(** * Properties *)
(* ================================================================== *)

(** ** Strings *)

Lemma truthy_true_iff (s : string) : JS.truthy s = true <-> s <> EmptyString.
Proof.
  destruct s; simpl; split; intro H; congruence.
Qed.

Lemma eqb_sym_str (a b : string) : String.eqb a b = String.eqb b a.
Proof.
  destruct (String.eqb_spec a b) as [->|N].
  - now rewrite String.eqb_refl.
  - symmetry. apply String.eqb_neq. congruence.
Qed.

(** ** Stable sorting by an integer key *)

Section SortFacts.
Context {A : Type}.
Variable compare : A -> A -> Z.
Variable key : A -> Z.
Hypothesis compare_key : forall a b, compare a b = (key a - key b)%Z.

Lemma insert_perm (x : A) (l : list A) :
  Permutation (JS.insert compare x l) (x :: l).
Proof.
  induction l as [|y l IH]; simpl; [reflexivity|].
  destruct (compare x y <=? 0)%Z; [reflexivity|].
  rewrite IH. apply perm_swap.
Qed.

Lemma sort_perm (l : list A) : Permutation (JS.sort compare l) l.
Proof.
  induction l as [|x l IH]; simpl; [reflexivity|].
  rewrite insert_perm. now constructor.
Qed.

Lemma sort_length (l : list A) :
  List.length (JS.sort compare l) = List.length l.
Proof. apply Permutation_length, sort_perm. Qed.

Lemma insert_sorted (x : A) (l : list A) :
  StronglySorted (Spec.key_le key) l -> StronglySorted (Spec.key_le key) (JS.insert compare x l).
Proof.
  induction 1 as [|y l Hs IH Hall]; simpl.
  - repeat constructor.
  - rewrite compare_key.
    destruct (Z.leb_spec (key x - key y) 0) as [Hle|Hgt].
    + constructor; [now constructor|].
      constructor; [unfold Spec.key_le; lia|].
      eapply Forall_impl; [|exact Hall].
      unfold Spec.key_le; intros; lia.
    + constructor; [exact IH|].
      eapply Permutation_Forall; [symmetry; apply insert_perm|].
      constructor; [unfold Spec.key_le; lia|exact Hall].
Qed.

Lemma sort_sorted (l : list A) : StronglySorted (Spec.key_le key) (JS.sort compare l).
Proof.
  induction l as [|x l IH]; simpl; [constructor|].
  now apply insert_sorted.
Qed.

(** Stability: the elements of one key keep their order. *)
Lemma insert_stable (c : Z) (x : A) (l : list A) :
  StronglySorted (Spec.key_le key) l ->
  filter (fun a => Z.eqb (key a) c) (JS.insert compare x l)
  = filter (fun a => Z.eqb (key a) c) (x :: l).
Proof.
  induction 1 as [|y l Hs IH Hall]; [reflexivity|].
  cbn [JS.insert]. rewrite compare_key.
  destruct (Z.leb_spec (key x - key y) 0) as [Hle|Hgt]; [reflexivity|].
  cbn [filter] in *. rewrite IH.
  destruct (Z.eqb_spec (key x) c), (Z.eqb_spec (key y) c);
    try reflexivity.
  lia.
Qed.

Lemma sort_stable (c : Z) (l : list A) :
  filter (fun a => Z.eqb (key a) c) (JS.sort compare l)
  = filter (fun a => Z.eqb (key a) c) l.
Proof.
  induction l as [|x l IH]; [reflexivity|].
  cbn [JS.sort]. rewrite insert_stable by apply sort_sorted.
  cbn [filter]. now rewrite IH.
Qed.
End SortFacts.

(** ** Grouping *)

Lemma distinct_In (l : list string) (s : string) :
  In s (D3.distinct l) <-> In s l.
Proof.
  induction l as [|a l IH]; simpl; [tauto|].
  rewrite filter_In, IH.
  destruct (String.eqb_spec s a) as [->|N]; simpl; split; intro H.
  - now left.
  - now left.
  - destruct H as [H|[H _]]; [now left|now right].
  - destruct H as [H|H]; [now left|right; split; auto].
Qed.

Lemma distinct_NoDup (l : list string) : NoDup (D3.distinct l).
Proof.
  induction l as [|a l IH]; simpl; constructor.
  - rewrite filter_In. intros [_ H]. now rewrite String.eqb_refl in H.
  - now apply NoDup_filter.
Qed.

Lemma distinct_snoc (l : list string) (s : string) :
  D3.distinct (l ++ [s])
  = D3.distinct l ++ (if existsb (String.eqb s) l then [] else [s]).
Proof.
  induction l as [|a l IH]; [reflexivity|].
  cbn [app D3.distinct existsb]. rewrite IH, filter_app. f_equal. f_equal.
  destruct (existsb (String.eqb s) l).
  - now rewrite orb_true_r.
  - rewrite orb_false_r. cbn [filter].
    now destruct (String.eqb s a).
Qed.

Lemma existsb_distinct (l : list string) (s : string) :
  existsb (String.eqb s) (D3.distinct l) = existsb (String.eqb s) l.
Proof.
  apply eq_true_iff_eq. rewrite !existsb_exists.
  split; intros [y [Hy E]]; exists y; split; auto;
    now apply distinct_In.
Qed.

Section GroupFacts.
Context {A R : Type}.
Variable reduce : list A -> R.
Variable key : A -> string.

Lemma group_insert_map (ks : list string) (f : string -> list A)
    (s : string) (v : A) :
  NoDup ks ->
  D3.group_insert s v (map (fun s' => (s', f s')) ks)
  = map (fun s' => (s', f s' ++ (if String.eqb s' s then [v] else []))) ks
    ++ (if existsb (String.eqb s) ks then [] else [(s, [v])]).
Proof.
  induction 1 as [|a ks Hn Hnd IH]; [reflexivity|].
  cbn [map D3.group_insert existsb app].
  rewrite (eqb_sym_str s a).
  destruct (String.eqb_spec a s) as [->|N]; cbn [orb].
  - rewrite app_nil_r. f_equal. apply map_ext_in. intros s' Hs'.
    destruct (String.eqb_spec s' s) as [->|_]; [contradiction|].
    now rewrite app_nil_r.
  - rewrite IH, app_nil_r. reflexivity.
Qed.

Theorem groups_spec (l : list A) :
  D3.groups key l
  = map (fun s => (s, Spec.members key l s)) (D3.distinct (map key l)).
Proof.
  induction l as [|v l IH] using rev_ind; [reflexivity|].
  unfold D3.groups in *. rewrite fold_left_app. cbn [fold_left].
  rewrite IH, group_insert_map by apply distinct_NoDup.
  rewrite map_app. cbn [map]. rewrite distinct_snoc, map_app.
  rewrite existsb_distinct.
  f_equal.
  - apply map_ext. intro s. unfold Spec.members.
    rewrite filter_app. cbn [filter].
    now rewrite (eqb_sym_str s (key v)).
  - destruct (existsb (String.eqb (key v)) (map key l)) eqn:E;
      [reflexivity|].
    cbn [map]. unfold Spec.members. rewrite filter_app. cbn [filter].
    rewrite String.eqb_refl.
    replace (filter (fun v0 => String.eqb (key v0) (key v)) l) with (@nil A);
      [reflexivity|].
    symmetry. clear IH. induction l as [|w l IHl]; [reflexivity|].
    cbn [map existsb] in E. apply orb_false_elim in E as [E1 E2].
    cbn [filter]. rewrite (eqb_sym_str (key w) (key v)), E1.
    now apply IHl.
Qed.

Corollary rollups_spec (l : list A) :
  D3.rollups reduce key l
  = map (fun s => (s, reduce (Spec.members key l s))) (D3.distinct (map key l)).
Proof.
  unfold D3.rollups. rewrite groups_spec, map_map. reflexivity.
Qed.
End GroupFacts.


(** ** The detail view: ranking and matrix *)

Lemma StronglySorted_weaken {A} (P Q : A -> A -> Prop) (l : list A) :
  (forall a b, P a b -> Q a b) -> StronglySorted P l -> StronglySorted Q l.
Proof.
  intros HPQ. induction 1 as [|a l Hs IH Hall]; constructor; auto.
  eapply Forall_impl; [|exact Hall]. auto.
Qed.

Lemma NoDup_firstn {A} (n : nat) (l : list A) : NoDup l -> NoDup (firstn n l).
Proof.
  revert n. induction l as [|a l IH]; intros [|n] H; simpl;
    try constructor.
  - inversion H as [|? ? Hn Hd]; subst. intro Hin. apply Hn.
    rewrite <- (firstn_skipn n l). apply in_or_app. now left.
  - inversion H; subst. now apply IH.
Qed.

Lemma by_count_desc_key (a b : string * nat) :
  Heatmap.by_count_desc a b = (Spec.neg_count a - Spec.neg_count b)%Z.
Proof. unfold Heatmap.by_count_desc, Spec.neg_count. lia. Qed.

Lemma byDiscipline_spec (data : list Heatmap.MedalRow) (code : string) :
  Heatmap.byDiscipline data code
  = map (fun d => (d, Spec.occurrences (Heatmap.filtered data code) d))
        (D3.distinct (map Heatmap.discipline (Heatmap.filtered data code))).
Proof. unfold Heatmap.byDiscipline. now rewrite rollups_spec. Qed.

Lemma byDiscipline_keys (data : list Heatmap.MedalRow) (code : string) :
  map fst (Heatmap.byDiscipline data code)
  = D3.distinct (map Heatmap.discipline (Heatmap.filtered data code)).
Proof.
  rewrite byDiscipline_spec, map_map. cbn [fst]. apply map_id.
Qed.


Lemma topDisciplines_NoDup (data : list Heatmap.MedalRow) (code : string) :
  NoDup (Heatmap.topDisciplines data code).
Proof.
  unfold Heatmap.topDisciplines, JS.slice0.
  rewrite <- firstn_map. apply NoDup_firstn.
  eapply Permutation_NoDup.
  - apply Permutation_map. symmetry. apply sort_perm.
  - rewrite byDiscipline_keys. apply distinct_NoDup.
Qed.

Lemma cellCount_exact (rows : list Heatmap.MedalRow) (d m : string) :
  Heatmap.cellCount rows d m = Spec.matching rows d m.
Proof.
  unfold Heatmap.cellCount, Spec.matching.
  now destruct (List.length _).
Qed.

(** C4.  [topDisciplines] counts the rows of the selected country per
    discipline, in order of first occurrence, sorts the disciplines by
    descending count with ties left in that order, and returns the first
    twelve; on the three-record example the answer is Swimming, then
    Athletics. *)
Theorem topDisciplines_ranked (data : list Heatmap.MedalRow) (code : string) :
  let rows := Heatmap.filtered data code in
  let counted := Heatmap.byDiscipline data code in
  let ranked := JS.sort Heatmap.by_count_desc counted in
  rows = filter (fun d => String.eqb (Heatmap.country_code d) code) data
  /\ counted
     = map (fun d => (d, Spec.occurrences rows d))
           (D3.distinct (map Heatmap.discipline rows))
  /\ Permutation ranked counted
  /\ StronglySorted Spec.count_ge ranked
  /\ (forall n : nat,
        filter (fun p => Nat.eqb (snd p) n) ranked
        = filter (fun p => Nat.eqb (snd p) n) counted)
  /\ Heatmap.topDisciplines data code = map fst (firstn 12 ranked)
  /\ Heatmap.topDisciplines Examples.heatmap_records "USA"
     = ["Swimming"; "Athletics"]%string.
Proof.
  intros rows counted ranked. subst rows counted ranked.
  split; [reflexivity|].
  split; [apply byDiscipline_spec|].
  split; [apply sort_perm|].
  split.
  { eapply StronglySorted_weaken;
      [|apply (sort_sorted _ Spec.neg_count by_count_desc_key)].
    unfold Spec.key_le, Spec.neg_count, Spec.count_ge. intros; lia. }
  split.
  { intro n.
    assert (E : forall p : string * nat,
               Nat.eqb (snd p) n
               = Z.eqb (Spec.neg_count p) (- Z.of_nat n)).
    { intro p. unfold Spec.neg_count.
      destruct (Nat.eqb_spec (snd p) n),
               (Z.eqb_spec (- Z.of_nat (snd p)) (- Z.of_nat n));
        try reflexivity; lia. }
    rewrite (filter_ext _ _ E (JS.sort _ _)), (filter_ext _ _ E).
    apply (sort_stable _ Spec.neg_count by_count_desc_key). }
  split; reflexivity.
Qed.

Lemma cells_cross_product (data : list Heatmap.MedalRow) (code : string) :
  Heatmap.cells data code
  = flat_map
      (fun d =>
         map (fun m =>
                {| Heatmap.cell_discipline := d;
                   Heatmap.medalType := m;
                   Heatmap.count :=
                     Spec.matching (Heatmap.filtered data code) d m |})
             Heatmap.medalTypes)
      (Heatmap.topDisciplines data code).
Proof.
  unfold Heatmap.cells, Heatmap.cellsFor. apply flat_map_ext. intro d.
  apply map_ext. intro m. rewrite cellCount_exact. reflexivity.
Qed.


(** The scenario of the specification: six cells, among them the silver
    cell of Athletics with count 0. *)
Example cells_scenario :
  List.length (Heatmap.cells Examples.heatmap_records "USA") = 6
  /\ In {| Heatmap.cell_discipline := "Athletics";
           Heatmap.medalType := "Silver Medal";
           Heatmap.count := 0 |}
        (Heatmap.cells Examples.heatmap_records "USA").
Proof. split; [reflexivity|]. cbn. tauto. Qed.

(** ** The timeline series *)

Lemma filter_filter_and {A} (p q : A -> bool) (l : list A) :
  filter q (filter p l) = filter (fun a => p a && q a) l.
Proof.
  induction l as [|a l IH]; [reflexivity|].
  cbn [filter]. destruct (p a); cbn [filter andb]; rewrite IH; reflexivity.
Qed.

Lemma filtered_selected (data : list Timeline.MedalRow) (code : string)
    (disc : option string) :
  Timeline.filtered data code disc = filter (Spec.selected code disc) data.
Proof.
  unfold Timeline.filtered, Spec.selected.
  destruct disc as [s|]; [destruct (JS.truthy s)|].
  - apply filter_filter_and.
  - apply filter_ext. intro r. now rewrite andb_true_r.
  - apply filter_ext. intro r. now rewrite andb_true_r.
Qed.

Lemma entry_dated (parseDate : string -> option Z)
    (rows : list Timeline.MedalRow) (s : string) :
  Timeline.entry parseDate
    (s, Timeline.reduce (Spec.members Timeline.medal_date rows s))
  = option_map (Spec.dated_counts rows s) (parseDate s).
Proof.
  unfold Timeline.entry. cbn [fst snd].
  destruct (parseDate s); reflexivity.
Qed.

Lemma grouped_entries (parseDate : string -> option Z)
    (data : list Timeline.MedalRow) (code : string) (disc : option string) :
  map (Timeline.entry parseDate) (Timeline.grouped data code disc)
  = map (fun s =>
           option_map
             (Spec.dated_counts (Timeline.filtered data code disc) s)
             (parseDate s))
        (D3.distinct
           (map Timeline.medal_date (Timeline.filtered data code disc))).
Proof.
  unfold Timeline.grouped. rewrite rollups_spec, map_map.
  apply map_ext. intro s. apply entry_dated.
Qed.



Lemma by_date_key (a b : Timeline.MedalByDate) :
  Timeline.by_date a b = (Timeline.date a - Timeline.date b)%Z.
Proof. reflexivity. Qed.


(** The scenario of the specification: two entries, the first with a gold
    and a silver medal, the second with a gold medal. *)
Example seriesData_scenario :
  Timeline.seriesData TimeParse.timeParse_Ymd Examples.records "USA" None
  = [ {| Timeline.date := 1722124800000; Timeline.gold := 1;
         Timeline.silver := 1; Timeline.bronze := 0; Timeline.total := 2 |};
      {| Timeline.date := 1722211200000; Timeline.gold := 1;
         Timeline.silver := 0; Timeline.bronze := 0; Timeline.total := 1 |} ].
Proof. vm_compute. reflexivity. Qed.


(** ** A country without medals *)

Lemma filter_none {A} (p : A -> bool) (l : list A) :
  Forall (fun a => p a = false) l -> filter p l = [].
Proof.
  induction 1 as [|a l Ha _ IH]; [reflexivity|].
  cbn [filter]. now rewrite Ha.
Qed.

Lemma timeline_filtered_none (data : list Timeline.MedalRow) (code : string)
    (disc : option string) :
  Forall (fun r => String.eqb (Timeline.country_code r) code = false) data ->
  Timeline.filtered data code disc = [].
Proof.
  intro H. unfold Timeline.filtered. rewrite (filter_none _ _ H).
  destruct disc as [s|]; [destruct (JS.truthy s)|]; reflexivity.
Qed.

(** C6, as the code has it.  For a country without a matching row the
    timeline series, the ranked disciplines and the matrix are empty.  The
    views then show their "no data" message, the timeline's depending on
    whether a discipline is selected, provided that the component has rows
    at all and a measured size; with no rows loaded or a zero size the
    drawing effect returns before it draws anything. *)
Theorem empty_selection (parseDate : string -> option Z)
    (tdata : list Timeline.MedalRow) (hdata : list Heatmap.MedalRow)
    (size : ComponentSize) (p : Timeline.Props) (zoom : ZoomTransform) :
  Forall (fun r => String.eqb (Timeline.country_code r)
                              (Timeline.selectedCountryCode p) = false)
         tdata ->
  Forall (fun r => String.eqb (Heatmap.country_code r)
                              (Timeline.selectedCountryCode p) = false)
         hdata ->
  Timeline.seriesData parseDate tdata (Timeline.selectedCountryCode p)
                      (Timeline.selectedDiscipline p) = []
  /\ Heatmap.topDisciplines hdata (Timeline.selectedCountryCode p) = []
  /\ Heatmap.cells hdata (Timeline.selectedCountryCode p) = []
  /\ Timeline.draw parseDate tdata size p zoom
     = match tdata with
       | [] => Timeline.NotDrawn
       | _ =>
           if size_is_zero size then Timeline.NotDrawn
           else Timeline.EmptyState
                  (Timeline.titleText p)
                  (if JS.truthy_opt (Timeline.selectedDiscipline p)
                   then "No medals in this discipline."
                   else "No medals recorded for this country.")%string
       end
  /\ Heatmap.draw hdata size (Timeline.selectedCountryCode p)
                  (Timeline.selectedCountryName p)
     = match hdata with
       | [] => Heatmap.NotDrawn
       | _ =>
           if size_is_zero size then Heatmap.NotDrawn
           else Heatmap.EmptyState
                  (Heatmap.titleText (Timeline.selectedCountryName p))
                  "No discipline-level medals recorded for this country."%string
       end.
Proof.
  intros Ht Hh.
  assert (S : Timeline.seriesData parseDate tdata
                (Timeline.selectedCountryCode p)
                (Timeline.selectedDiscipline p) = []).
  { unfold Timeline.seriesData, Timeline.grouped.
    now rewrite (timeline_filtered_none _ _ _ Ht). }
  assert (T : Heatmap.topDisciplines hdata (Timeline.selectedCountryCode p)
              = []).
  { unfold Heatmap.topDisciplines, Heatmap.byDiscipline, Heatmap.filtered.
    now rewrite (filter_none _ _ Hh). }
  assert (C : Heatmap.cells hdata (Timeline.selectedCountryCode p) = []).
  { unfold Heatmap.cells. now rewrite T. }
  repeat split; try assumption.
  - unfold Timeline.draw. rewrite S. reflexivity.
  - unfold Heatmap.draw. rewrite C. reflexivity.
Qed.

Lemma empty_selection_witness :
  let p := {| Timeline.selectedCountryCode := "FRA";
              Timeline.selectedCountryName := "France";
              Timeline.selectedDiscipline := Some "Judo" |}%string in
  Timeline.seriesData TimeParse.timeParse_Ymd Examples.records "FRA"
                      (Some "Judo"%string) = []
  /\ Heatmap.topDisciplines Examples.heatmap_records "FRA" = []
  /\ Timeline.draw TimeParse.timeParse_Ymd Examples.records Examples.size600
                   p zoomIdentity
     = Timeline.EmptyState "Focus: France — Judo"
                           "No medals in this discipline."
  /\ Heatmap.draw Examples.heatmap_records Examples.size600 "FRA" "France"
     = Heatmap.EmptyState
         "Detail: Discipline Mix for France (Top 12)"
         "No discipline-level medals recorded for this country.".
Proof.
  intro p.
  destruct (empty_selection TimeParse.timeParse_Ymd Examples.records
              Examples.heatmap_records Examples.size600 p zoomIdentity)
    as [S [T [_ [Dt Dh]]]].
  - repeat constructor.
  - repeat constructor.
  - split; [exact S|]. split; [exact T|]. split; [exact Dt|exact Dh].
Defined.

(** C6, as the claim has it, fails: with no rows loaded every country is
    without a matching row, and neither view shows a message. *)
Lemma empty_dataset_not_drawn :
  let p := {| Timeline.selectedCountryCode := "FRA";
              Timeline.selectedCountryName := "France";
              Timeline.selectedDiscipline := None |}%string in
  Timeline.loadData [] = []
  /\ Heatmap.loadData [] = []
  /\ ~ (exists title message,
          Timeline.draw TimeParse.timeParse_Ymd (Timeline.loadData [])
                        Examples.size600 p zoomIdentity
          = Timeline.EmptyState title message)
  /\ ~ (exists title message,
          Heatmap.draw (Heatmap.loadData []) Examples.size600 "FRA" "France"
          = Heatmap.EmptyState title message).
Proof.
  cbn. repeat split; try reflexivity;
    intros [t [m H]]; discriminate H.
Qed.

(** ** The hover readout *)

Lemma sorted_nth_error (l : list Timeline.MedalByDate) :
  StronglySorted Spec.date_le l ->
  forall (i j : nat) (ei ej : Timeline.MedalByDate),
    nth_error l i = Some ei -> nth_error l j = Some ej -> i <= j ->
    (Timeline.date ei <= Timeline.date ej)%Z.
Proof.
  induction 1 as [|y l Hs IH Hall]; intros i j ei ej Hi Hj Hij.
  - destruct i; discriminate.
  - destruct i as [|i], j as [|j]; cbn in Hi, Hj.
    + injection Hi as <-. injection Hj as <-. lia.
    + injection Hi as <-. apply nth_error_In in Hj.
      rewrite Forall_forall in Hall. apply (Hall _ Hj).
    + lia.
    + apply (IH i j ei ej Hi Hj). lia.
Qed.

Section Bisect.
Local Open Scope Z_scope.

Variable a : list Timeline.MedalByDate.
Variable x : Z.
Hypothesis a_sorted : StronglySorted Spec.date_le a.
Hypothesis a_small : Z.of_nat (List.length a) < 2 ^ 31.

(** Every entry before position [i] is dated before [x]. *)
Let before (i : Z) : Prop :=
  forall j e, nth_error a j = Some e -> Z.of_nat j < i ->
              Timeline.date e < x.

(** Every entry from position [i] on is dated [x] or later. *)
Let from (i : Z) : Prop :=
  forall j e, nth_error a j = Some e -> i <= Z.of_nat j ->
              x <= Timeline.date e.

Lemma sorted_nth (i j : nat) (ei ej : Timeline.MedalByDate) :
  nth_error a i = Some ei -> nth_error a j = Some ej -> (i <= j)%nat ->
  Timeline.date ei <= Timeline.date ej.
Proof. now apply sorted_nth_error. Qed.

Lemma midpoint (lo hi : Z) :
  0 <= lo -> lo < hi -> hi <= Z.of_nat (List.length a) ->
  Z.shiftr ((lo + hi) mod 2 ^ 32) 1 = (lo + hi) / 2.
Proof.
  intros H0 H1 H2. rewrite Z.mod_small by lia.
  now rewrite Z.shiftr_div_pow2 by lia.
Qed.

Lemma bisect_loop_spec (fuel : nat) :
  forall lo hi,
    0 <= lo -> lo <= hi -> hi <= Z.of_nat (List.length a) ->
    hi - lo <= Z.of_nat fuel ->
    before lo -> from hi ->
    exists i, Timeline.bisect_loop fuel a x lo hi = Ok i
              /\ lo <= i <= hi /\ before i /\ from i.
Proof.
  induction fuel as [|fuel IH]; intros lo hi H0 H1 H2 Hf Hb Hfr.
  - assert (lo = hi) by lia. subst hi. exists lo. cbn.
    rewrite Z.ltb_irrefl. repeat split; auto; lia.
  - cbn [Timeline.bisect_loop].
    destruct (Z.ltb_spec lo hi) as [Hlt|Hge].
    + rewrite midpoint by lia.
      set (mid := (lo + hi) / 2).
      assert (Hmid : lo <= mid < hi).
      { subst mid. split.
        - apply Z.div_le_lower_bound; lia.
        - apply Z.div_lt_upper_bound; lia. }
      destruct (nth_error a (Z.to_nat mid)) as [d|] eqn:E.
      2:{ apply nth_error_None in E. lia. }
      destruct (Z.ltb_spec (Timeline.date d - x) 0) as [Hd|Hd].
      * destruct (IH (mid + 1) hi) as [i [Hi [Hr [Hbi Hfi]]]];
          try lia; auto.
        { intros j e Hj Hlt'.
          pose proof (sorted_nth j (Z.to_nat mid) e d Hj E). lia. }
        exists i. repeat split; auto; lia.
      * destruct (IH lo mid) as [i [Hi [Hr [Hbi Hfi]]]]; try lia; auto.
        { intros j e Hj Hle.
          pose proof (sorted_nth (Z.to_nat mid) j d e E Hj). lia. }
        exists i. repeat split; auto; lia.
    + assert (lo = hi) by lia. subst hi. exists lo.
      repeat split; auto; lia.
Qed.

Lemma bisect_left_spec :
  exists i, Timeline.bisect_left a x = Ok i
            /\ 0 <= i <= Z.of_nat (List.length a)
            /\ before i /\ from i.
Proof.
  unfold Timeline.bisect_left.
  apply bisect_loop_spec; try lia.
  - intros j e _ H. lia.
  - intros j e Hj H.
    assert (nth_error a j <> None) as Hn by congruence.
    apply nth_error_Some in Hn. lia.
Qed.
End Bisect.

(** C7, as the code has it.  On a non-empty series sorted by date the
    binary search ends, and the readout shows the first entry dated on or
    after the date under the pointer, or the last entry when every entry
    is dated before it; the entry carries its gold, silver, bronze and
    total counts. *)
Theorem hover_first_not_before (series : list Timeline.MedalByDate) (x : Z) :
  series <> [] ->
  StronglySorted Spec.date_le series ->
  (Z.of_nat (List.length series) < 2 ^ 31)%Z ->
  exists p l1 l2,
    Timeline.hover series x = Ok (Some p)
    /\ series = l1 ++ p :: l2
    /\ Forall (fun e => (Timeline.date e < x)%Z) l1
    /\ ((x <= Timeline.date p)%Z \/ l2 = []).
Proof.
  intros Hne Hs Hsmall.
  destruct (bisect_left_spec series x Hs Hsmall)
    as [b [Hb [Hr [Hbefore Hfrom]]]].
  unfold Timeline.hover. rewrite Hb.
  assert (Hlen : (0 < Z.of_nat (List.length series))%Z).
  { destruct series; [congruence|cbn [List.length]; lia]. }
  set (i := Z.min b (Z.of_nat (List.length series) - 1)).
  assert (Hi : (0 <= i < Z.of_nat (List.length series))%Z) by (subst i; lia).
  destruct (Z.ltb_spec i 0) as [Hneg|_]; [lia|].
  destruct (nth_error series (Z.to_nat i)) as [p|] eqn:E.
  2:{ apply nth_error_None in E. lia. }
  destruct (nth_error_split series (Z.to_nat i) E) as [l1 [l2 [Hsplit Hl1]]].
  exists p, l1, l2. repeat split; auto.
  - apply Forall_forall. intros e He.
    apply In_nth_error in He as [j Hj].
    assert (Hjl : j < List.length l1).
    { apply nth_error_Some. congruence. }
    apply (Hbefore j e).
    + rewrite Hsplit, nth_error_app1; assumption.
    + subst i. lia.
  - destruct (Z.le_gt_cases b (Z.of_nat (List.length series) - 1))
      as [Hle|Hgt].
    + left. apply (Hfrom (Z.to_nat i) p E). subst i. lia.
    + right. rewrite Hsplit, length_app in Hi, Hgt. cbn [List.length] in *.
      destruct l2; [reflexivity|]. cbn [List.length] in *. subst i. lia.
Qed.

Lemma hover_first_not_before_witness :
  exists p l1 l2,
    Timeline.hover
      (Timeline.seriesData TimeParse.timeParse_Ymd Examples.records "USA"
                           None)
      1722124800001
    = Ok (Some p)
    /\ Timeline.seriesData TimeParse.timeParse_Ymd Examples.records "USA"
                           None
       = l1 ++ p :: l2
    /\ Forall (fun e => (Timeline.date e < 1722124800001)%Z) l1
    /\ ((1722124800001 <= Timeline.date p)%Z \/ l2 = []).
Proof.
  apply hover_first_not_before.
  - rewrite seriesData_scenario. discriminate.
  - rewrite seriesData_scenario.
    repeat constructor; unfold Spec.date_le; cbn; lia.
  - rewrite seriesData_scenario. cbn. lia.
Defined.

(** C7, as the claim has it, fails: one millisecond after the first day of
    the scenario the readout shows the second day, although the first day
    is nearer. *)
Lemma hover_not_nearest :
  let series :=
    Timeline.seriesData TimeParse.timeParse_Ymd Examples.records "USA" None in
  let first := {| Timeline.date := 1722124800000; Timeline.gold := 1;
                  Timeline.silver := 1; Timeline.bronze := 0;
                  Timeline.total := 2 |} in
  let second := {| Timeline.date := 1722211200000; Timeline.gold := 1;
                   Timeline.silver := 0; Timeline.bronze := 0;
                   Timeline.total := 1 |} in
  let pointer := 1722124800001%Z in
  Timeline.hover series pointer = Ok (Some second)
  /\ In first series
  /\ (Z.abs (Timeline.date first - pointer)
      < Z.abs (Timeline.date second - pointer))%Z.
Proof.
  cbv zeta. rewrite seriesData_scenario.
  split; [vm_compute; reflexivity|].
  split; [now left|]. cbn. lia.
Qed.

(** ** The colour domain of the overview *)

Lemma fold_min_spec (r : list Z) (x : Z) :
  In (fold_left Z.min r x) (x :: r)
  /\ Forall (fun t => (fold_left Z.min r x <= t)%Z) (x :: r).
Proof.
  revert x. induction r as [|y r IH]; intro x; cbn [fold_left].
  - split; [now left|]. repeat constructor. lia.
  - destruct (IH (Z.min x y)) as [Hin Hall].
    inversion Hall as [|? ? Hm Hr]; subst. split.
    + destruct Hin as [E|Hin]; [|now right; right].
      rewrite <- E. destruct (Z.min_spec x y) as [[_ ->]|[_ ->]];
        [now left|now right; left].
    + repeat constructor; try lia. exact Hr.
Qed.

Lemma fold_max_spec (r : list Z) (x : Z) :
  In (fold_left Z.max r x) (x :: r)
  /\ Forall (fun t => (t <= fold_left Z.max r x)%Z) (x :: r).
Proof.
  revert x. induction r as [|y r IH]; intro x; cbn [fold_left].
  - split; [now left|]. repeat constructor. lia.
  - destruct (IH (Z.max x y)) as [Hin Hall].
    inversion Hall as [|? ? Hm Hr]; subst. split.
    + destruct Hin as [E|Hin]; [|now right; right].
      rewrite <- E. destruct (Z.max_spec x y) as [[_ ->]|[_ ->]];
        [now right; left|now left].
    + repeat constructor; try lia. exact Hr.
Qed.

(** C8.  On a non-empty totals table the colour domain is the least and
    the greatest [total] of the table, and the overview draws with that
    domain whatever country is selected: two runs that differ only in the
    selection have the same domain. *)
Theorem colorDomain_min_max (data : list Treemap.MedalTotalRow)
    (size : ComponentSize) (selected1 selected2 : string) :
  data <> [] ->
  let totals := map Treemap.total data in
  let lo := fst (Treemap.colorDomain data) in
  let hi := snd (Treemap.colorDomain data) in
  In lo totals
  /\ In hi totals
  /\ Forall (fun t => (lo <= t <= hi)%Z) totals
  /\ Treemap.view_domain (Treemap.draw data size selected1)
     = Treemap.view_domain (Treemap.draw data size selected2)
  /\ Treemap.view_domain (Treemap.draw data size selected1)
     = if size_is_zero size then None else Some (lo, hi).
Proof.
  intros Hne totals lo hi. subst totals lo hi.
  destruct data as [|d data]; [congruence|].
  unfold Treemap.colorDomain, Treemap.minTotal, Treemap.maxTotal.
  cbn [map D3.min D3.max nullish fst snd].
  destruct (fold_min_spec (map Treemap.total data) (Treemap.total d))
    as [Hmin Hlo].
  destruct (fold_max_spec (map Treemap.total data) (Treemap.total d))
    as [Hmax Hhi].
  split; [exact Hmin|]. split; [exact Hmax|]. split.
  - rewrite Forall_forall in *. intros t Ht.
    specialize (Hlo t Ht). specialize (Hhi t Ht). lia.
  - unfold Treemap.draw. destruct (size_is_zero size); split; reflexivity.
Qed.

Lemma colorDomain_min_max_witness :
  Treemap.colorDomain Examples.totals = (64, 126)%Z
  /\ Treemap.view_domain
       (Treemap.draw Examples.totals Examples.size600 "USA")
     = Treemap.view_domain
         (Treemap.draw Examples.totals Examples.size600 "FRA").
Proof.
  split; [reflexivity|].
  apply (colorDomain_min_max Examples.totals Examples.size600 "USA" "FRA").
  discriminate.
Defined.

(** ** Selection state *)

Lemma draw_zoom_updates_draw (parseDate : string -> option Z)
    (data : list Timeline.MedalRow) (size : ComponentSize)
    (p : Timeline.Props) (z : ZoomTransform) :
  Timeline.draw_zoom_updates (Timeline.draw parseDate data size p z) = []
  \/ Timeline.draw_zoom_updates (Timeline.draw parseDate data size p z) = [z].
Proof.
  unfold Timeline.draw.
  destruct data; [now left|].
  destruct (size_is_zero size); [now left|].
  destruct (Timeline.seriesData _ _ _ _); [now left|now right].
Qed.

Lemma commit_spec (parseDate : string -> option Z)
    (data : list Timeline.MedalRow) (size : ComponentSize)
    (prev next : Timeline.Props) (z : ZoomTransform) :
  Timeline.commit parseDate data size prev next z
  = if Timeline.reset_deps_changed prev next then zoomIdentity else z.
Proof.
  unfold Timeline.commit, Timeline.reset_zoom_updates.
  destruct (draw_zoom_updates_draw parseDate data size next z) as [-> | ->];
    destruct (Timeline.reset_deps_changed prev next); reflexivity.
Qed.

(** C1, as the code has it.  [selectCountry code name] sets the country
    code and name to the given values and the discipline to null.  The
    timeline resets its zoom transform to the identity when the code differs
    from the code selected before or a discipline was selected before; when
    the country already selected is selected again with no discipline
    selected, the transform stays as it is. *)
Theorem selectCountry_spec (parseDate : string -> option Z)
    (code name : string) (s : App.Dashboard) :
  let s' := App.selectCountry parseDate code name s in
  App.selectedCountryCode (App.selection s') = code
  /\ App.selectedCountryName (App.selection s') = name
  /\ App.selectedDiscipline (App.selection s') = None
  /\ App.zoomTransform s'
     = if negb (String.eqb (App.selectedCountryCode (App.selection s)) code)
          || negb (JS.same_opt (App.selectedDiscipline (App.selection s))
                               None)
       then zoomIdentity
       else App.zoomTransform s.
Proof.
  cbn. repeat split. apply commit_spec.
Qed.

(** C2, as the code has it.  [selectDiscipline d] resets the zoom transform
    of the timeline to the identity when [d] differs from the discipline
    selected before, and leaves it as it is when [d] is that discipline. *)
Theorem selectDiscipline_zoom (parseDate : string -> option Z)
    (d : option string) (s : App.Dashboard) :
  App.zoomTransform (App.selectDiscipline parseDate d s)
  = if JS.same_opt (App.selectedDiscipline (App.selection s)) d
    then App.zoomTransform s
    else zoomIdentity.
Proof.
  cbn. rewrite commit_spec. unfold Timeline.reset_deps_changed. cbn.
  rewrite String.eqb_refl. cbn.
  now destruct (JS.same_opt _ _).
Qed.

(** C9.  [selectDiscipline] changes the selected discipline only: the
    country code and the country name are the ones selected before. *)
Theorem selectDiscipline_frame (parseDate : string -> option Z)
    (d : option string) (s : App.Dashboard) :
  let s' := App.selectDiscipline parseDate d s in
  App.selectedCountryCode (App.selection s')
  = App.selectedCountryCode (App.selection s)
  /\ App.selectedCountryName (App.selection s')
     = App.selectedCountryName (App.selection s)
  /\ App.selectedDiscipline (App.selection s') = d
  /\ App.data s' = App.data s
  /\ App.size s' = App.size s.
Proof. cbn. repeat split. Qed.

Lemma zoom2_not_identity : Examples.zoom2 <> zoomIdentity.
Proof.
  intro H. apply (f_equal (fun t => PrimFloat.eqb (k t) 1%float)) in H.
  vm_compute in H. discriminate H.
Qed.

Lemma zoomed_in_reachable :
  App.reachable TimeParse.timeParse_Ymd Examples.zoomed_in.
Proof.
  unfold Examples.zoomed_in.
  apply App.reach_zoomed.
  - apply App.reach_resized, App.reach_loaded, App.reach_mounted.
  - vm_compute. reflexivity.
  - vm_compute. reflexivity.
Qed.

(** C1, as the claim has it, fails: after zooming in on the chart of the
    default country, selecting that country again leaves the zoom transform
    as it is. *)
Lemma selectCountry_keeps_zoom :
  App.reachable TimeParse.timeParse_Ymd Examples.zoomed_in
  /\ App.zoomTransform
       (App.selectCountry TimeParse.timeParse_Ymd "USA" "United States"
                          Examples.zoomed_in)
     <> zoomIdentity.
Proof.
  split; [apply zoomed_in_reachable|].
  cbn. rewrite commit_spec. cbn. apply zoom2_not_identity.
Qed.

(** C2, as the claim has it, fails: after zooming in, selecting a
    discipline resets the zoom transform. *)
Lemma selectDiscipline_resets_zoom :
  App.reachable TimeParse.timeParse_Ymd Examples.zoomed_in
  /\ App.zoomTransform
       (App.selectDiscipline TimeParse.timeParse_Ymd (Some "Swimming"%string)
                             Examples.zoomed_in)
     <> App.zoomTransform Examples.zoomed_in.
Proof.
  split; [apply zoomed_in_reachable|].
  cbn. rewrite commit_spec. cbn.
  intro H. symmetry in H. now apply zoom2_not_identity.
Qed.

(** The scenario of the specification: France, then Judo, then the United
    States again leaves no discipline selected. *)
Example reselect_scenario :
  App.selectedDiscipline
    (App.selection
       (App.selectCountry TimeParse.timeParse_Ymd "USA" "United States"
          (App.selectDiscipline TimeParse.timeParse_Ymd (Some "Judo"%string)
             (App.selectCountry TimeParse.timeParse_Ymd "FRA" "France"
                Examples.zoomed_in))))
  = None.
Proof. reflexivity. Qed.

(** ** The rows the detail view loads *)






(* ================================================================== *)
(** * Further properties of the components *)
(* ================================================================== *)

(** ** Counting by key *)

Lemma list_sum_perm (l1 l2 : list nat) :
  Permutation l1 l2 -> list_sum l1 = list_sum l2.
Proof.
  unfold list_sum. induction 1; cbn [fold_right]; lia.
Qed.

Lemma list_sum_add {K} (f g : K -> nat) (ks : list K) :
  list_sum (map (fun s => f s + g s) ks)
  = list_sum (map f ks) + list_sum (map g ks).
Proof.
  unfold list_sum.
  induction ks as [|s ks IH]; cbn [map fold_right]; [reflexivity|]. lia.
Qed.

Lemma list_sum_indicator (ks : list string) (s0 : string) :
  NoDup ks ->
  list_sum (map (fun s => if String.eqb s0 s then 1 else 0) ks)
  = if existsb (String.eqb s0) ks then 1 else 0.
Proof.
  unfold list_sum.
  induction 1 as [|s ks Hn Hnd IH]; [reflexivity|].
  cbn [map fold_right existsb]. rewrite IH.
  destruct (String.eqb_spec s0 s) as [->|N]; cbn [orb].
  - destruct (existsb (String.eqb s) ks) eqn:E; [|reflexivity].
    apply existsb_exists in E as [y [Hy E]].
    apply String.eqb_eq in E. subst y. contradiction.
  - reflexivity.
Qed.

Lemma list_sum_cons (x : nat) (l : list nat) :
  list_sum (x :: l) = x + list_sum l.
Proof. reflexivity. Qed.

Lemma list_sum_zero {K} (ks : list K) :
  list_sum (map (fun _ => 0) ks) = 0.
Proof.
  unfold list_sum. induction ks as [|s ks IH]; cbn [map fold_right]; lia.
Qed.

(** The groups of distinct keys split the rows that satisfy [P] and whose
    key is listed. *)
Lemma tally_by_key {A} (key : A -> string) (P : A -> bool)
    (ks : list string) (l : list A) :
  NoDup ks ->
  list_sum
    (map (fun s =>
            List.length
              (filter (fun a => String.eqb (key a) s && P a) l)) ks)
  = List.length
      (filter (fun a => P a && existsb (String.eqb (key a)) ks) l).
Proof.
  intro Hnd. induction l as [|a l IH].
  - cbn [filter List.length]. apply list_sum_zero.
  - cbn [filter].
    erewrite map_ext with
      (g := fun s =>
              (if String.eqb (key a) s then (if P a then 1 else 0) else 0)
              + List.length
                  (filter (fun a0 => String.eqb (key a0) s && P a0) l)).
    2:{ intro s. destruct (String.eqb (key a) s), (P a); reflexivity. }
    rewrite list_sum_add, IH.
    destruct (P a); cbn [andb].
    + rewrite (list_sum_indicator ks (key a) Hnd).
      destruct (existsb (String.eqb (key a)) ks); reflexivity.
    + erewrite map_ext with (g := fun _ => 0).
      2:{ intro s. now destruct (String.eqb (key a) s). }
      now rewrite list_sum_zero.
Qed.

Lemma three_types (A : Type) (ty : A -> string) (l : list A) :
  List.length (filter (fun a => String.eqb (ty a) "Gold Medal") l)
  + List.length (filter (fun a => String.eqb (ty a) "Silver Medal") l)
  + List.length (filter (fun a => String.eqb (ty a) "Bronze Medal") l)
  = List.length (filter (fun a => Tally.known_type (ty a)) l).
Proof.
  induction l as [|a l IH]; [reflexivity|].
  cbn [filter]. unfold Tally.known_type in *.
  destruct (String.eqb_spec (ty a) "Gold Medal") as [E|_].
  - rewrite E. cbn. lia.
  - destruct (String.eqb_spec (ty a) "Silver Medal") as [E|_].
    + rewrite E. cbn. lia.
    + destruct (String.eqb (ty a) "Bronze Medal"); cbn; lia.
Qed.

(** ** The medals of a series *)

Lemma dated_total (rows : list Timeline.MedalRow) (s : string) (t : Z) :
  Timeline.total (Spec.dated_counts rows s t)
  = List.length
      (filter (fun r => String.eqb (Timeline.medal_date r) s
                        && Tally.known_type (Timeline.medal_type r)) rows).
Proof.
  unfold Spec.dated_counts, Timeline.count_type, Spec.members.
  cbn [Timeline.total].
  rewrite (three_types _ Timeline.medal_type), filter_filter_and.
  reflexivity.
Qed.

Lemma non_null_totals (parseDate : string -> option Z)
    (rows : list Timeline.MedalRow) (ks : list string) :
  list_sum
    (map Timeline.total
         (Timeline.non_null
            (map (fun s => option_map (Spec.dated_counts rows s)
                                      (parseDate s)) ks)))
  = list_sum
      (map (fun s =>
              List.length
                (filter (fun r =>
                           String.eqb (Timeline.medal_date r) s
                           && Tally.known_type (Timeline.medal_type r))
                        rows))
           (filter (Tally.parses parseDate) ks)).
Proof.
  induction ks as [|s ks IH]; [reflexivity|].
  cbn [map filter]. unfold Tally.parses at 1.
  destruct (parseDate s) as [t|]; cbn [option_map Timeline.non_null].
  - cbn [map]. unfold list_sum in *. cbn [fold_right].
    now rewrite IH, dated_total.
  - exact IH.
Qed.

Lemma existsb_filter_distinct (Q : string -> bool) (l : list string)
    (s : string) :
  In s l ->
  existsb (String.eqb s) (filter Q (D3.distinct l)) = Q s.
Proof.
  intro Hin. destruct (Q s) eqn:E.
  - apply existsb_exists. exists s. split; [|apply String.eqb_refl].
    apply filter_In. split; [now apply distinct_In|exact E].
  - destruct (existsb _ _) eqn:X; [|reflexivity].
    apply existsb_exists in X as [y [Hy Ey]].
    apply String.eqb_eq in Ey. subst y.
    apply filter_In in Hy as [_ Hy]. congruence.
Qed.

(** X1.  The totals of a series add up to the number of selected rows that
    have a date that parses and one of the three medal types: no such row
    is counted twice or left out, and a row with another medal type or a
    date that does not parse is counted nowhere. *)
Theorem series_total_conserved (parseDate : string -> option Z)
    (data : list Timeline.MedalRow) (code : string) (disc : option string) :
  Tally.series_total (Timeline.seriesData parseDate data code disc)
  = List.length
      (filter (fun r => Tally.known_type (Timeline.medal_type r)
                        && Tally.parses parseDate (Timeline.medal_date r))
              (Timeline.filtered data code disc)).
Proof.
  unfold Tally.series_total, Timeline.seriesData.
  rewrite (list_sum_perm _ _
             (Permutation_map Timeline.total
                (sort_perm Timeline.by_date _))).
  rewrite grouped_entries, non_null_totals.
  set (rows := Timeline.filtered data code disc).
  rewrite tally_by_key
    by (apply NoDup_filter, distinct_NoDup).
  f_equal. apply filter_ext_in. intros r Hr. f_equal.
  apply existsb_filter_distinct. now apply in_map.
Qed.

Lemma timeline_loadData_dated (rows : list Timeline.CsvRow)
    (r : Timeline.MedalRow) :
  In r (Timeline.loadData rows) ->
  Timeline.medal_date r <> EmptyString
  /\ Timeline.country_code r <> EmptyString.
Proof.
  unfold Timeline.loadData. rewrite filter_In, andb_true_iff.
  rewrite !truthy_true_iff. tauto.
Qed.

Lemma filtered_incl (data : list Timeline.MedalRow) (code : string)
    (disc : option string) (r : Timeline.MedalRow) :
  In r (Timeline.filtered data code disc) -> In r data.
Proof.
  rewrite filtered_selected, filter_In. tauto.
Qed.

Lemma seriesData_ext (p1 p2 : string -> option Z)
    (data : list Timeline.MedalRow) (code : string) (disc : option string) :
  (forall r, In r (Timeline.filtered data code disc) ->
             p1 (Timeline.medal_date r) = p2 (Timeline.medal_date r)) ->
  Timeline.seriesData p1 data code disc
  = Timeline.seriesData p2 data code disc.
Proof.
  intro H. unfold Timeline.seriesData. rewrite !grouped_entries.
  f_equal. f_equal. apply map_ext_in. intros s Hs.
  apply distinct_In, in_map_iff in Hs as [r [<- Hr]].
  now rewrite (H r Hr).
Qed.

(** X2.  The loader keeps no row with an empty date, so the series of
    loaded rows does not depend on what the date parser makes of the empty
    string: two parsers that agree on every non-empty string give the same
    series. *)
Theorem series_ignores_empty_date (p1 p2 : string -> option Z)
    (rows : list Timeline.CsvRow) (code : string) (disc : option string) :
  (forall s : string, s <> EmptyString -> p1 s = p2 s) ->
  Timeline.seriesData p1 (Timeline.loadData rows) code disc
  = Timeline.seriesData p2 (Timeline.loadData rows) code disc.
Proof.
  intro H. apply seriesData_ext. intros r Hr. apply H.
  apply filtered_incl in Hr. now apply timeline_loadData_dated in Hr.
Qed.

Lemma series_ignores_empty_date_witness :
  Timeline.seriesData TimeParse.timeParse_Ymd
    (Timeline.loadData Examples.rows) "USA" None
  = Timeline.seriesData
      (fun s => if String.eqb s "" then Some 0%Z
                else TimeParse.timeParse_Ymd s)
      (Timeline.loadData Examples.rows) "USA" None.
Proof.
  apply series_ignores_empty_date.
  intros s Hs. destruct (String.eqb_spec s ""); [contradiction|reflexivity].
Defined.




(** ** Domains of the scales *)

Lemma last_cons_default {A} (rest : list A) :
  forall f e : A, last (f :: rest) e = last rest f.
Proof.
  induction rest as [|g rest IH]; intros f e; [reflexivity|].
  change (last (f :: g :: rest) e) with (last (g :: rest) e).
  now rewrite (IH g e), (IH g f).
Qed.

Lemma last_In {A} (rest : list A) : forall e : A, In (last rest e) (e :: rest).
Proof.
  induction rest as [|f rest IH]; intro e; [now left|].
  right. rewrite last_cons_default. apply IH.
Qed.

Lemma sorted_le_last (e : Timeline.MedalByDate)
    (rest : list Timeline.MedalByDate) :
  StronglySorted Spec.date_le (e :: rest) ->
  Forall (fun d => (Timeline.date d <= Timeline.date (last rest e))%Z)
         (e :: rest).
Proof.
  revert e. induction rest as [|f rest IH]; intros e H.
  - repeat constructor. cbn. lia.
  - inversion H as [|? ? Hs Hall]; subst.
    specialize (IH f Hs).
    rewrite last_cons_default. constructor; [|exact IH].
    inversion IH as [|? ? Hf _]; subst.
    inversion Hall as [|? ? Hef _]; subst.
    unfold Spec.date_le in Hef. lia.
Qed.

(** X4.  The x domain of the chart runs from the date of the first entry
    of the series to the date of the last one, and every entry lies within
    it. *)
Theorem xDomain_first_last (parseDate : string -> option Z)
    (data : list Timeline.MedalRow) (code : string) (disc : option string) :
  let series := Timeline.seriesData parseDate data code disc in
  Scales.xDomain series
  = match series with
    | [] => None
    | e :: rest => Some (Timeline.date e, Timeline.date (last rest e))
    end
  /\ match Scales.xDomain series with
     | None => series = []
     | Some (lo, hi) =>
         Forall (fun d => (lo <= Timeline.date d <= hi)%Z) series
     end.
Proof.
  intro series.
  assert (Hs : StronglySorted Spec.date_le series)
    by apply (sort_sorted _ Timeline.date by_date_key).
  destruct series as [|e rest] eqn:E; [split; reflexivity|].
  assert (X : Scales.xDomain (e :: rest)
              = Some (Timeline.date e, Timeline.date (last rest e))).
  { unfold Scales.xDomain. cbn [map D3.min D3.max].
    destruct (fold_min_spec (map Timeline.date rest) (Timeline.date e))
      as [Hmin Hlo].
    destruct (fold_max_spec (map Timeline.date rest) (Timeline.date e))
      as [Hmax Hhi].
    pose proof (sorted_le_last e rest Hs) as Hlast.
    inversion Hs as [|? ? _ Hfirst]; subst.
    f_equal. f_equal.
    - inversion Hlo as [|? ? Hle _]; subst.
      change (Timeline.date e :: map Timeline.date rest)
        with (map Timeline.date (e :: rest)) in Hmin.
      apply in_map_iff in Hmin as [d [Hd [Hin|Hin]]]; [subst d; lia|].
      rewrite Forall_forall in Hfirst. specialize (Hfirst d Hin).
      unfold Spec.date_le in Hfirst. lia.
    - change (Timeline.date e :: map Timeline.date rest)
        with (map Timeline.date (e :: rest)) in Hmax, Hhi.
      apply in_map_iff in Hmax as [d [Hd Hin]].
      rewrite Forall_forall in Hlast, Hhi.
      specialize (Hlast d Hin).
      pose proof (last_In rest e) as Hl.
      specialize (Hhi (Timeline.date (last rest e)) (in_map _ _ _ Hl)).
      cbn beta in Hlast, Hhi. lia. }
  split; [exact X|]. rewrite X.
  pose proof (sorted_le_last e rest Hs) as Hlast.
  inversion Hs as [|? ? _ Hfirst]; subst.
  rewrite Forall_forall in *. intros d [<-|Hin].
  - specialize (Hlast e (or_introl eq_refl)). cbn beta in Hlast. lia.
  - specialize (Hlast d (or_intror Hin)). specialize (Hfirst d Hin).
    unfold Spec.date_le in Hfirst. cbn beta in Hlast. lia.
Qed.

Lemma or_one_max_bounds (l : list Z) :
  Forall (fun v => (0 <= v)%Z) l ->
  (1 <= Scales.or_one (D3.max l))%Z
  /\ Forall (fun v => (v <= Scales.or_one (D3.max l))%Z) l.
Proof.
  intro Hpos. destruct l as [|v l]; [split; [cbn; lia|constructor]|].
  cbn [D3.max Scales.or_one].
  destruct (fold_max_spec l v) as [Hin Hall].
  rewrite Forall_forall in Hpos. specialize (Hpos _ Hin).
  destruct (Z.eqb_spec (fold_left Z.max l v) 0) as [E|N].
  - split; [lia|]. eapply Forall_impl; [|exact Hall].
    cbn beta. intros; lia.
  - split; [lia|exact Hall].
Qed.

(** X5.  The upper end of the timeline's y domain is at least 1 and at
    least the total of every entry, so the domain is never empty, also when
    every entry has total 0. *)
Theorem yMax_bounds (series : list Timeline.MedalByDate) :
  (1 <= Scales.yMax series)%Z
  /\ Forall (fun e => (Z.of_nat (Timeline.total e) <= Scales.yMax series)%Z)
            series.
Proof.
  unfold Scales.yMax.
  destruct (or_one_max_bounds
              (map (fun d => Z.of_nat (Timeline.total d)) series))
    as [H1 H2].
  - apply Forall_forall. intros v Hv.
    apply in_map_iff in Hv as [e [<- _]]. lia.
  - split; [exact H1|].
    rewrite Forall_forall in *. intros e He.
    apply (H2 _ (in_map (fun d => Z.of_nat (Timeline.total d)) _ _ He)).
Qed.

(** X6.  The upper end of the colour domain of the detail view is at least
    1 and at least the count of every cell, so the domain is never empty,
    also when every cell has count 0. *)
Theorem maxCount_bounds (cells : list Heatmap.HeatmapCell) :
  (1 <= Scales.maxCount cells)%Z
  /\ Forall (fun c => (Z.of_nat (Heatmap.count c) <= Scales.maxCount cells)%Z)
            cells.
Proof.
  unfold Scales.maxCount.
  destruct (or_one_max_bounds
              (map (fun d => Z.of_nat (Heatmap.count d)) cells))
    as [H1 H2].
  - apply Forall_forall. intros v Hv.
    apply in_map_iff in Hv as [e [<- _]]. lia.
  - split; [exact H1|].
    rewrite Forall_forall in *. intros e He.
    apply (H2 _ (in_map (fun d => Z.of_nat (Heatmap.count d)) _ _ He)).
Qed.

(** ** More on the ranking and the matrix *)

Lemma ranked_sorted (data : list Heatmap.MedalRow) (code : string) :
  StronglySorted Spec.count_ge
    (JS.sort Heatmap.by_count_desc (Heatmap.byDiscipline data code)).
Proof.
  eapply StronglySorted_weaken;
    [|apply (sort_sorted _ Spec.neg_count by_count_desc_key)].
  unfold Spec.key_le, Spec.neg_count, Spec.count_ge. intros; lia.
Qed.

Lemma sorted_app_le {A} (R : A -> A -> Prop) (l1 l2 : list A) :
  StronglySorted R (l1 ++ l2) ->
  forall a b, In a l1 -> In b l2 -> R a b.
Proof.
  induction l1 as [|x l1 IH]; intros H a b Ha Hb; [contradiction|].
  inversion H as [|? ? Hs Hall]; subst.
  destruct Ha as [<-|Ha].
  - rewrite Forall_forall in Hall. apply Hall, in_or_app. now right.
  - now apply IH.
Qed.

Lemma ranked_counts (data : list Heatmap.MedalRow) (code : string)
    (d : string) (n : nat) :
  In (d, n) (JS.sort Heatmap.by_count_desc (Heatmap.byDiscipline data code))
  <-> In d (map Heatmap.discipline (Heatmap.filtered data code))
      /\ n = Spec.occurrences (Heatmap.filtered data code) d.
Proof.
  split.
  - intro H. apply (Permutation_in _ (sort_perm Heatmap.by_count_desc _)) in H.
    rewrite byDiscipline_spec in H.
    apply in_map_iff in H as [d0 [E Hd]]. injection E as <- <-.
    split; [now apply distinct_In|reflexivity].
  - intros [Hd ->].
    apply (Permutation_in _
             (Permutation_sym (sort_perm Heatmap.by_count_desc _))).
    rewrite byDiscipline_spec. apply in_map_iff. exists d.
    split; [reflexivity|now apply distinct_In].
Qed.

(** X7.  The twelve listed disciplines are the best ones: a discipline of
    the country that is not listed has at most as many medals as every
    listed discipline. *)
Theorem topDisciplines_best (data : list Heatmap.MedalRow) (code : string)
    (listed other : string) :
  In listed (Heatmap.topDisciplines data code) ->
  In other (map Heatmap.discipline (Heatmap.filtered data code)) ->
  ~ In other (Heatmap.topDisciplines data code) ->
  Spec.occurrences (Heatmap.filtered data code) other
  <= Spec.occurrences (Heatmap.filtered data code) listed.
Proof.
  unfold Heatmap.topDisciplines, JS.slice0.
  set (ranked := JS.sort Heatmap.by_count_desc
                         (Heatmap.byDiscipline data code)).
  intros Hl Ho Hn.
  apply in_map_iff in Hl as [[d n] [E Hl]]. cbn in E. subst d.
  assert (Hin : In (other,
                    Spec.occurrences (Heatmap.filtered data code) other)
                   ranked).
  { apply ranked_counts. auto. }
  rewrite <- (firstn_skipn 12 ranked) in Hin.
  apply in_app_or in Hin as [Hin|Hin].
  { exfalso. apply Hn. apply in_map_iff.
    exists (other, Spec.occurrences (Heatmap.filtered data code) other).
    auto. }
  pose proof (ranked_sorted data code) as Hs. fold ranked in Hs.
  rewrite <- (firstn_skipn 12 ranked) in Hs.
  pose proof (sorted_app_le _ _ _ Hs _ _ Hl Hin) as Hle.
  unfold Spec.count_ge in Hle. cbn [snd] in Hle.
  assert (Hr : In (listed, n) ranked).
  { rewrite <- (firstn_skipn 12 ranked). apply in_or_app. now left. }
  apply ranked_counts in Hr as [_ ->]. exact Hle.
Qed.

Lemma topDisciplines_best_witness :
  Spec.occurrences (Heatmap.filtered Samples.thirteen "USA") "Swimming"
  <= Spec.occurrences (Heatmap.filtered Samples.thirteen "USA") "Tennis".
Proof.
  apply topDisciplines_best.
  - vm_compute. tauto.
  - vm_compute. tauto.
  - vm_compute. intro H.
    repeat (destruct H as [H|H]; [discriminate H|]). exact H.
Defined.

(** X8.  Every listed discipline is a discipline of a row of the country;
    when the country has at most twelve disciplines, all of them are
    listed. *)
Theorem topDisciplines_complete (data : list Heatmap.MedalRow)
    (code : string) :
  List.length
    (D3.distinct (map Heatmap.discipline (Heatmap.filtered data code)))
  <= 12 ->
  incl (Heatmap.topDisciplines data code)
       (map Heatmap.discipline (Heatmap.filtered data code))
  /\ Permutation
       (Heatmap.topDisciplines data code)
       (D3.distinct (map Heatmap.discipline (Heatmap.filtered data code))).
Proof.
  intro Hlen.
  assert (P : Permutation
                (Heatmap.topDisciplines data code)
                (D3.distinct
                   (map Heatmap.discipline (Heatmap.filtered data code)))).
  { unfold Heatmap.topDisciplines, JS.slice0.
    rewrite firstn_all2.
    - rewrite <- byDiscipline_keys. apply Permutation_map, sort_perm.
    - rewrite sort_length, <- (length_map fst), byDiscipline_keys.
      exact Hlen. }
  split; [|exact P].
  intros d Hd. apply distinct_In. eapply Permutation_in; eauto.
Qed.

Lemma topDisciplines_complete_witness :
  Permutation
    (Heatmap.topDisciplines Examples.heatmap_records "USA")
    (D3.distinct
       (map Heatmap.discipline
            (Heatmap.filtered Examples.heatmap_records "USA"))).
Proof.
  apply topDisciplines_complete. vm_compute. lia.
Defined.




Lemma cells_total_flat (rows : list Heatmap.MedalRow) (top : list string) :
  Tally.cells_total
    (flat_map
       (fun d =>
          map (fun m =>
                 {| Heatmap.cell_discipline := d;
                    Heatmap.medalType := m;
                    Heatmap.count := Spec.matching rows d m |})
              Heatmap.medalTypes)
       top)
  = list_sum
      (map (fun d =>
              List.length
                (filter (fun r =>
                           String.eqb (Heatmap.discipline r) d
                           && Tally.known_type (Heatmap.medal_type r))
                        rows))
           top).
Proof.
  unfold Tally.cells_total.
  induction top as [|d top IH]; [reflexivity|].
  cbn [flat_map]. rewrite map_app, list_sum_app, IH. clear IH.
  cbn [map]. rewrite list_sum_cons. f_equal.
  unfold Heatmap.medalTypes. cbn [map Heatmap.count].
  rewrite !list_sum_cons. cbn [list_sum fold_right].
  rewrite <- (filter_filter_and
                (fun r => String.eqb (Heatmap.discipline r) d)
                (fun r => Tally.known_type (Heatmap.medal_type r))).
  rewrite <- (three_types _ Heatmap.medal_type).
  unfold Spec.matching.
  rewrite <- !(filter_filter_and
                 (fun r => String.eqb (Heatmap.discipline r) d)).
  lia.
Qed.

(** X10.  The counts of the matrix add up to the number of rows of the
    country that have one of the three medal types and a listed
    discipline: no medal is counted in two cells, and a medal of another
    type or of an unlisted discipline is counted in none. *)
Theorem cells_total_conserved (data : list Heatmap.MedalRow)
    (code : string) :
  Tally.cells_total (Heatmap.cells data code)
  = List.length
      (filter (fun r =>
                 Tally.known_type (Heatmap.medal_type r)
                 && Overview.has (Heatmap.topDisciplines data code)
                                 (Heatmap.discipline r))
              (Heatmap.filtered data code)).
Proof.
  rewrite cells_cross_product, cells_total_flat.
  apply tally_by_key, topDisciplines_NoDup.
Qed.

(** ** The overview: leaves and labels *)

Lemma by_value_desc_key (a b : Treemap.MedalTotalRow) :
  Treemap.by_value_desc a b
  = ((fun d => - Treemap.total d) a - (fun d => - Treemap.total d) b)%Z.
Proof. unfold Treemap.by_value_desc. lia. Qed.

(** X11.  The leaves of the overview are the rows of the table, each once,
    by descending total; rows with the same total keep their order in the
    table. *)
Theorem leaves_ranked (data : list Treemap.MedalTotalRow) :
  Permutation (Overview.leaves data) data
  /\ StronglySorted (fun a b => (Treemap.total b <= Treemap.total a)%Z)
                    (Overview.leaves data)
  /\ (forall t : Z,
        filter (fun d => Z.eqb (Treemap.total d) t) (Overview.leaves data)
        = filter (fun d => Z.eqb (Treemap.total d) t) data).
Proof.
  unfold Overview.leaves. split; [apply sort_perm|]. split.
  - eapply StronglySorted_weaken;
      [|apply (sort_sorted _ _ by_value_desc_key)].
    unfold Spec.key_le. intros; lia.
  - intro t.
    assert (E : forall d : Treemap.MedalTotalRow,
               Z.eqb (Treemap.total d) t
               = Z.eqb (- Treemap.total d) (- t)).
    { intro d. destruct (Z.eqb_spec (Treemap.total d) t),
                        (Z.eqb_spec (- Treemap.total d) (- t));
        try reflexivity; lia. }
    rewrite (filter_ext _ _ E (JS.sort _ _)), (filter_ext _ _ E).
    apply (sort_stable _ _ by_value_desc_key).
Qed.

Lemma filter_listed_prefix {A} (f : A -> string) (l : list A) :
  NoDup (map f l) ->
  forall n,
    filter (fun d => existsb (String.eqb (f d)) (map f (firstn n l))) l
    = firstn n l.
Proof.
  induction l as [|a l IH]; intros Hnd n.
  - now destruct n.
  - inversion Hnd as [|? ? Hn Hd]; subst. destruct n as [|n].
    + cbn [firstn map existsb]. apply filter_none.
      apply Forall_forall. reflexivity.
    + cbn [firstn map existsb filter]. rewrite String.eqb_refl. cbn [orb].
      f_equal. etransitivity; [|apply (IH Hd n)]. apply filter_ext_in.
      intros d Hin.
      destruct (String.eqb_spec (f d) (f a)) as [E|_]; [|reflexivity].
      exfalso. apply Hn. rewrite <- E. now apply in_map.
Qed.

(** X12.  When no two rows of the table share a country code, the leaves
    that get a label are the first twelve leaves (all of them when the
    table has fewer rows). *)
Theorem labelled_first_twelve (data : list Treemap.MedalTotalRow) :
  NoDup (map Treemap.country_code data) ->
  Overview.labelled data = firstn 12 (Overview.leaves data).
Proof.
  intro Hnd. unfold Overview.labelled, Overview.topLabels, Overview.has,
               JS.slice0.
  change (JS.sort (fun a b => (Treemap.total b - Treemap.total a)%Z) data)
    with (Overview.leaves data).
  apply filter_listed_prefix.
  eapply Permutation_NoDup; [|exact Hnd].
  apply Permutation_map. symmetry. apply sort_perm.
Qed.

Lemma labelled_first_twelve_witness :
  Overview.labelled Samples.table = [Samples.usa_row; Samples.fra_row].
Proof.
  rewrite labelled_first_twelve; [reflexivity|].
  repeat constructor; cbn; intuition discriminate.
Defined.

(** ** Sessions *)

(** X13.  Whatever leaves are clicked and disciplines selected, the
    selected country code is never empty, and the selected code and name
    are those of the default country or the code and name of one row of
    the totals table: the name cannot go out of step with the code. *)
Theorem session_country_in_step (rows : list Treemap.MedalTotalRow)
    (s : App.Selection) :
  Overview.session rows s ->
  App.selectedCountryCode s <> EmptyString
  /\ ((App.selectedCountryCode s = "USA"
       /\ App.selectedCountryName s = "United States")%string
      \/ exists d, In d rows
                   /\ Treemap.country_code d = App.selectedCountryCode s
                   /\ Treemap.country d = App.selectedCountryName s).
Proof.
  induction 1 as [|d s Hs IH Hd|o s Hs IH].
  - split; [discriminate|now left].
  - apply (Permutation_in _ (sort_perm Treemap.by_value_desc _)) in Hd.
    unfold Overview.loadData in Hd. apply filter_In in Hd as [Hd Ht].
    apply truthy_true_iff in Ht. cbn. split; [exact Ht|].
    right. exists d. auto.
  - exact IH.
Qed.

Lemma session_country_in_step_witness :
  App.selectedCountryCode
    (App.setSelectedDiscipline (Some "Judo"%string)
       (Overview.click Samples.fra_row App.initial))
  <> EmptyString.
Proof.
  apply (session_country_in_step Samples.table).
  apply Overview.session_discipline, Overview.session_click.
  - apply Overview.session_initial.
  - vm_compute. tauto.
Defined.

Lemma same_opt_refl (o : option string) : JS.same_opt o o = true.
Proof. destruct o; cbn; [apply String.eqb_refl|reflexivity]. Qed.

(** X14.  Selecting the same country twice in a row is the same as
    selecting it once, and so is selecting the same discipline twice: the
    second selection changes neither the selection nor the zoom
    transform. *)
Theorem select_twice (parseDate : string -> option Z) (code name : string)
    (d : option string) (s : App.Dashboard) :
  App.selectCountry parseDate code name
    (App.selectCountry parseDate code name s)
  = App.selectCountry parseDate code name s
  /\ App.selectDiscipline parseDate d (App.selectDiscipline parseDate d s)
     = App.selectDiscipline parseDate d s.
Proof.
  unfold App.selectCountry, App.selectDiscipline, App.reselect.
  cbn. rewrite !commit_spec. unfold Timeline.reset_deps_changed. cbn.
  rewrite !String.eqb_refl, same_opt_refl. cbn.
  split; reflexivity.
Qed.



(** ** The two timelines *)

Lemma filter_map_comm {A B} (f : A -> B) (p : B -> bool) (l : list A) :
  filter p (map f l) = map f (filter (fun a => p (f a)) l).
Proof.
  induction l as [|a l IH]; [reflexivity|].
  cbn [map filter]. destruct (p (f a)); cbn [map]; now rewrite IH.
Qed.

Lemma loadData_forget (rows : list Timeline.CsvRow) :
  Timeline2.loadData rows = map Tally.forget (Timeline.loadData rows).
Proof.
  unfold Timeline2.loadData, Timeline.loadData.
  rewrite <- (filter_map_comm Tally.forget
                (fun d => JS.truthy (Timeline2.medal_date d)
                          && JS.truthy (Timeline2.country_code d))).
  now rewrite map_map.
Qed.

Lemma reduce_forget (v : list Timeline.MedalRow) :
  Timeline2.reduce (map Tally.forget v) = Timeline.reduce v.
Proof.
  unfold Timeline2.reduce, Timeline.reduce, Timeline2.count_type,
    Timeline.count_type.
  now rewrite !filter_map_comm, !length_map.
Qed.

Lemma grouped_forget (data : list Timeline.MedalRow) (code : string)
    (disc : option string) :
  JS.truthy_opt disc = false ->
  Timeline2.grouped (map Tally.forget data) code
  = Timeline.grouped data code disc.
Proof.
  intro Hd. unfold Timeline2.grouped, Timeline.grouped.
  assert (F : Timeline.filtered data code disc
              = filter (fun d => String.eqb (Timeline.country_code d) code)
                       data).
  { unfold Timeline.filtered. destruct disc as [s|]; [|reflexivity].
    cbn in Hd. now rewrite Hd. }
  rewrite F. unfold Timeline2.filtered.
  rewrite (filter_map_comm Tally.forget
             (fun d => String.eqb (Timeline2.country_code d) code)).
  cbn [Tally.forget Timeline2.country_code].
  set (rows := filter _ data).
  rewrite !rollups_spec, map_map. cbn [Tally.forget Timeline2.medal_date].
  apply map_ext. intro s. f_equal. unfold Spec.members.
  rewrite (filter_map_comm Tally.forget
             (fun v => String.eqb (Timeline2.medal_date v) s)).
  apply reduce_forget.
Qed.

(** X16.  On the same file the Homework 2 timeline computes the series
    that the Homework 3 timeline computes when no discipline is selected
    (null or the empty string). *)
Theorem timeline2_series (parseDate : string -> option Z)
    (rows : list Timeline.CsvRow) (code : string) (disc : option string) :
  JS.truthy_opt disc = false ->
  Timeline2.seriesData parseDate (Timeline2.loadData rows) code
  = Timeline.seriesData parseDate (Timeline.loadData rows) code disc.
Proof.
  intro Hd. unfold Timeline2.seriesData, Timeline.seriesData.
  now rewrite loadData_forget, (grouped_forget _ _ disc Hd).
Qed.

Lemma timeline2_series_witness :
  Timeline2.seriesData TimeParse.timeParse_Ymd
                       (Timeline2.loadData Examples.rows) "USA"
  = Timeline.seriesData TimeParse.timeParse_Ymd
                        (Timeline.loadData Examples.rows) "USA"
                        (Some ""%string).
Proof.
  apply timeline2_series. reflexivity.
Defined.

(** ** More on the hover readout *)

(** X17.  When an entry of the series has exactly the date under the
    pointer, the readout shows an entry of that date. *)
Theorem hover_exact_date (series : list Timeline.MedalByDate)
    (e : Timeline.MedalByDate) :
  In e series ->
  StronglySorted Spec.date_le series ->
  (Z.of_nat (List.length series) < 2 ^ 31)%Z ->
  exists p, Timeline.hover series (Timeline.date e) = Ok (Some p)
            /\ In p series
            /\ Timeline.date p = Timeline.date e.
Proof.
  intros He Hs Hsmall.
  destruct (bisect_left_spec series (Timeline.date e) Hs Hsmall)
    as [b [Hb [Hr [Hbefore Hfrom]]]].
  unfold Timeline.hover. rewrite Hb.
  apply In_nth_error in He as [j Hj].
  assert (Hjl : j < List.length series).
  { apply nth_error_Some. congruence. }
  assert (Hbj : (b <= Z.of_nat j)%Z).
  { destruct (Z.le_gt_cases b (Z.of_nat j)) as [H|H]; [exact H|].
    specialize (Hbefore j e Hj). lia. }
  replace (Z.min b (Z.of_nat (List.length series) - 1)) with b by lia.
  destruct (Z.ltb_spec b 0) as [Hneg|_]; [lia|].
  destruct (nth_error series (Z.to_nat b)) as [p|] eqn:E.
  2:{ apply nth_error_None in E. lia. }
  exists p. split; [reflexivity|]. split; [eapply nth_error_In; eauto|].
  pose proof (Hfrom (Z.to_nat b) p E) as H1.
  pose proof (sorted_nth_error series Hs (Z.to_nat b) j p e E Hj) as H2.
  lia.
Qed.

Lemma hover_exact_date_witness :
  exists p,
    Timeline.hover
      (Timeline.seriesData TimeParse.timeParse_Ymd Examples.records "USA"
                           None)
      1722211200000
    = Ok (Some p)
    /\ In p (Timeline.seriesData TimeParse.timeParse_Ymd Examples.records
                                 "USA" None)
    /\ Timeline.date p = 1722211200000%Z.
Proof.
  rewrite seriesData_scenario.
  apply (hover_exact_date _
           {| Timeline.date := 1722211200000; Timeline.gold := 1;
              Timeline.silver := 0; Timeline.bronze := 0;
              Timeline.total := 1 |}).
  - right. now left.
  - repeat constructor; unfold Spec.date_le; cbn; lia.
  - cbn. lia.
Defined.

(** ** More on the overview and the ranking *)

Lemma perm_filter {A} (p : A -> bool) (l l' : list A) :
  Permutation l l' -> Permutation (filter p l) (filter p l').
Proof.
  induction 1 as [|x l l' P IH|x y l|l l' l'' P1 IH1 P2 IH2]; cbn [filter].
  - constructor.
  - destruct (p x); [now constructor|exact IH].
  - destruct (p x), (p y); try reflexivity. apply perm_swap.
  - etransitivity; eassumption.
Qed.

(** X18.  When the overview is drawn, its leaves are the ranked rows of
    the table, and the leaves with the highlight stroke are as many as the
    rows whose country code is the selected one: none when the selected
    country is not in the table. *)
Theorem highlighted_leaves (data : list Treemap.MedalTotalRow)
    (size : ComponentSize) (selected : string) (domain : Z * Z)
    (leaves : list Treemap.Leaf) :
  Treemap.draw data size selected = Treemap.Drawn domain leaves ->
  map Treemap.leaf_row leaves = Overview.leaves data
  /\ Forall (fun l => Treemap.leaf_selected l
                      = String.eqb (Treemap.country_code (Treemap.leaf_row l))
                                   selected) leaves
  /\ List.length (filter Treemap.leaf_selected leaves)
     = List.length
         (filter (fun d => String.eqb (Treemap.country_code d) selected)
                 data).
Proof.
  unfold Treemap.draw. destruct data as [|r data]; [discriminate|].
  destruct (size_is_zero size); [discriminate|].
  intro H. injection H as _ <-.
  fold (Overview.leaves (r :: data)).
  split; [rewrite map_map; apply map_id|].
  split; [apply Forall_forall; intros l Hl;
          apply in_map_iff in Hl as [d [<- _]]; reflexivity|].
  rewrite filter_map_comm, length_map. cbn [Treemap.leaf_selected].
  apply Permutation_length, perm_filter.
  apply (sort_perm Treemap.by_value_desc (r :: data)).
Qed.

Lemma highlighted_leaves_witness :
  List.length
    (filter (fun d => String.eqb (Treemap.country_code d) "GER")
            Samples.table)
  = 0.
Proof.
  destruct (highlighted_leaves Samples.table Examples.size600 "GER"
              (Treemap.colorDomain Samples.table)
              (map (fun d => {| Treemap.leaf_row := d;
                                Treemap.leaf_selected := false |})
                   (Overview.leaves Samples.table)))
    as [_ [_ H]].
  - reflexivity.
  - rewrite <- H. reflexivity.
Defined.

(** X19.  The medal counts by which the disciplines are ranked are all at
    least 1 and add up to the number of loaded rows of the country. *)
Theorem byDiscipline_counts (data : list Heatmap.MedalRow) (code : string) :
  Forall (fun p => 1 <= snd p) (Heatmap.byDiscipline data code)
  /\ list_sum (map snd (Heatmap.byDiscipline data code))
     = List.length (Heatmap.filtered data code).
Proof.
  rewrite byDiscipline_spec.
  set (rows := Heatmap.filtered data code). split.
  - apply Forall_forall. intros p Hp.
    apply in_map_iff in Hp as [d [<- Hd]]. cbn [snd].
    apply distinct_In, in_map_iff in Hd as [r [E Hr]].
    unfold Spec.occurrences, Spec.members.
    assert (In r (filter (fun v => String.eqb (Heatmap.discipline v) d)
                         rows)) as Hin.
    { apply filter_In. split; [exact Hr|]. rewrite E.
      apply String.eqb_refl. }
    destruct (filter _ rows); [contradiction|cbn; lia].
  - rewrite map_map. cbn [snd].
    erewrite map_ext with
      (g := fun s =>
              List.length
                (filter (fun a => String.eqb (Heatmap.discipline a) s
                                  && true) rows)).
    2:{ intro s. unfold Spec.occurrences, Spec.members. f_equal.
        apply filter_ext. intro a. now rewrite andb_true_r. }
    rewrite (tally_by_key Heatmap.discipline (fun _ => true))
      by apply distinct_NoDup.
    f_equal. rewrite <- (filter_ext_in (fun _ => true)).
    + clear. induction rows as [|a l IH]; [reflexivity|].
      cbn [filter]. now rewrite IH.
    + intros a Ha. cbn [andb]. symmetry.
      rewrite existsb_distinct. apply existsb_exists.
      exists (Heatmap.discipline a).
      split; [now apply in_map|apply String.eqb_refl].
Qed.
